(** * RecruitIQ front end: data model, candidate table, evaluation card,
    audit trail, file upload and dashboard statistics

  A shallow embedding of the TypeScript sources:
  - the API model interfaces ([JobDescription], [Candidate], [Resume],
    [Evaluation], [StakeholderFeedback]);
  - [CandidateTable.tsx], [EvaluationCard], [CandidateDetailSheet]
    (audit trail), [FileUpload.tsx] and the dashboard's [fetchCandidates].

  String-literal union types become inductive types together with the
  literal each constructor stands for; a JavaScript [number] is an IEEE 754
  binary64 value ([spec_float]); JSX is a small element tree. *)

From Stdlib Require Import ZArith Lia Bool Ascii String.
From Stdlib Require Import Floats.SpecFloat.
From stdpp Require Import base option list strings gmap pretty.

Local Open Scope string_scope.

(** ** JavaScript numbers *)

Module Number.

(** A [number] is a binary64 float; [S754_nan] is [NaN]. *)
Definition number : Type := spec_float.

Definition prec : Z := 53.
Definition emax : Z := 1024.

(** The number denoted by an integer literal. *)
Definition of_Z (z : Z) : number := binary_normalize prec emax z 0 false.

(** [m * 2^e] rounded to binary64 (for literals such as [6.5]). *)
Definition of_scaled (m e : Z) : number := binary_normalize prec emax m e false.

(** [x >= y] and [x < y] of the language: both are [false] as soon as one
    operand is [NaN]. *)
Definition ge (x y : number) : bool := SFleb y x.
Definition lt (x y : number) : bool := SFltb x y.

Definition isNaN (x : number) : bool :=
  match x with S754_nan => true | _ => false end.

Definition NaN : number := S754_nan.

(** [z <= x] for an integer [z] and a number [x], decided on the exact
    value [m * 2^e] of the number; never true of [NaN]. *)
Definition leInteger (z : Z) (x : number) : bool :=
  match x with
  | S754_nan => false
  | S754_infinity s => negb s
  | S754_zero _ => (z <=? 0)%Z
  | S754_finite s m e =>
      let v := if s then Z.neg m else Z.pos m in
      if (0 <=? e)%Z then (z <=? v * 2 ^ e)%Z else (z * 2 ^ (- e) <=? v)%Z
  end.

(** [limit] is the largest natural number not above [x]; there is none
    ([None]) when every integer is below [x]. *)
Definition integerPart (x : number) (limit : option nat) : Prop :=
  ∀ z : Z, leInteger z x = true
           ↔ match limit with Some k => (z ≤ Z.of_nat k)%Z | None => True end.

End Number.

Export Number(number).

(** ** JSX elements *)

Module Jsx.

(** An element carries its tag, its string-valued props, its [onClick]
    handler (already applied to its argument, so a value of the event type
    [E]) and its children.  A child [false] or [undefined], which renders
    nothing, is left out of [children]. *)
#[warnings="-register-all"]
Inductive Element (E : Type) : Type :=
| Text (s : string)
| Node (tag : string) (props : list (string * string))
       (onClick : option E) (children : list (Element E)).

Arguments Text {E} s.
Arguments Node {E} tag props onClick children.

Definition el {E} (tag className : string) (children : list (Element E)) : Element E :=
  Node tag [("className", className)] None children.

Definition icon {E} (name className : string) : Element E :=
  Node name [("className", className)] None [].

Definition tag_of {E} (e : Element E) : string :=
  match e with Text _ => "#text" | Node t _ _ _ => t end.

Definition children_of {E} (e : Element E) : list (Element E) :=
  match e with Text _ => [] | Node _ _ _ cs => cs end.

Definition onClick_of {E} (e : Element E) : option E :=
  match e with Text _ => None | Node _ _ h _ => h end.

Definition prop_of {E} (key : string) (e : Element E) : option string :=
  match e with
  | Text _ => None
  | Node _ ps _ _ => (λ x, snd (snd x)) <$> list_find (λ p, fst p = key) ps
  end.

(** The texts directly under an element, in order. *)
Definition texts_of {E} (e : Element E) : list string :=
  omap (λ c, match c with Text s => Some s | Node _ _ _ _ => None end) (children_of e).

(** [has_child_tag t e]: some direct child of [e] has tag [t]. *)
Definition has_child_tag {E} (t : string) (e : Element E) : bool :=
  existsb (λ c, String.eqb (tag_of c) t) (children_of e).

End Jsx.

Export Jsx(Element, Text, Node).

(** ** The rendering environment

  What the browser supplies: how a number prints inside JSX, and the
  locale-dependent date formatting of [Date]. *)

Class Runtime := {
numberToString : number → string;
toLocaleString : string → string;       (* new Date(s).toLocaleString() *)
toLocaleDateString : string → string    (* new Date(s).toLocaleDateString() *)
}.

(** ** API models/types *)

Module Api.

(** [any]: an uninterpreted JSON payload, kept as its text. *)
Definition any : Type := string.

Record JobDescription := {
  jd_id : Z;
  jd_title : string;
  jd_description : string;
  jd_requirements : option string;
  jd_is_active : bool;
  jd_created : string;
  jd_modified : string
}.

(** [status: 'pending' | 'processing' | 'completed' | 'error'] *)
Inductive CandidateStatus := Pending | Processing | Completed | Error.

Definition CandidateStatus_literal (s : CandidateStatus) : string :=
  match s with
  | Pending => "pending"
  | Processing => "processing"
  | Completed => "completed"
  | Error => "error"
  end.

(** [recommendation: 'interview' | 'decline'] *)
Inductive Recommendation := Interview | Decline.

Definition Recommendation_literal (r : Recommendation) : string :=
  match r with Interview => "interview" | Decline => "decline" end.

Definition Recommendation_of_string (s : string) : option Recommendation :=
  if String.eqb s "interview" then Some Interview
  else if String.eqb s "decline" then Some Decline
  else None.

(** [decision: 'interview' | 'decline' | 'pending'] *)
Inductive Decision := DecisionInterview | DecisionDecline | DecisionPending.

Definition Decision_literal (d : Decision) : string :=
  match d with
  | DecisionInterview => "interview"
  | DecisionDecline => "decline"
  | DecisionPending => "pending"
  end.

(** Which strings type-check as a [decision]. *)
Definition Decision_of_string (s : string) : option Decision :=
  if String.eqb s "interview" then Some DecisionInterview
  else if String.eqb s "decline" then Some DecisionDecline
  else if String.eqb s "pending" then Some DecisionPending
  else None.

Record Resume := {
  r_id : Z;
  r_file : string;
  r_original_filename : string;
  r_file_type : string;
  r_extracted_text : option string;
  r_candidate : Z;
  r_created : string;
  r_modified : string
}.

Record Evaluation := {
  e_id : Z;
  overall_score : number;
  resume_score : number;
  github_score : option number;
  linkedin_score : option number;
  ai_summary : string;
  recommendation : Recommendation;
  github_analysis : option any;
  linkedin_analysis : option any;
  generated_report : option string;
  e_candidate : Z;
  e_created : string;
  e_modified : string
}.

Record StakeholderFeedback := {
  f_id : Z;
  comments : string;
  decision : Decision;
  f_evaluation : Z;
  stakeholder : Z;
  f_created : string;
  f_modified : string
}.

Record AuditStep := { step : string; timestamp : string }.

Record Candidate := {
  id : Z;
  name : string;
  email : string;
  phone : option string;
  linkedin_url : option string;
  github_url : option string;
  status : CandidateStatus;
  celery_task_id : option string;
  error_message : option string;
  audit_log : list AuditStep;
  job_description : JobDescription;
  submitted_by : Z;
  created : string;
  modified : string;
  resume : option Resume;
  evaluation : option Evaluation     (* evaluation?: Evaluation *)
}.

(** The evaluations a candidate value carries: the optional field read as
    a list. *)
Definition evaluations (c : Candidate) : list Evaluation :=
  match evaluation c with Some e => [e] | None => [] end.

End Api.

(** ** Badge variants of the UI kit *)

Inductive BadgeVariant := Default | Secondary | Destructive | Outline.

Definition BadgeVariant_literal (v : BadgeVariant) : string :=
  match v with
  | Default => "default"
  | Secondary => "secondary"
  | Destructive => "destructive"
  | Outline => "outline"
  end.

(** [<Badge variant=... className=...>children</Badge>] *)
Definition Badge {E} (variant : BadgeVariant) (className : string)
    (children : list (Element E)) : Element E :=
  Node "Badge" [("variant", BadgeVariant_literal variant); ("className", className)]
       None children.

(** [<Button variant=... size=... onClick=...>children</Button>] *)
Definition Button {E} (variant size : string) (onClick : E)
    (children : list (Element E)) : Element E :=
  Node "Button" [("variant", variant); ("size", size)] (Some onClick) children.

(** ** components/CandidateTable.tsx *)

Module CandidateTable.

(** [status: 'pending' | 'processing' | 'completed' | 'failed' | 'processed' | 'rejected'] *)
Inductive Status := Pending | Processing | Completed | Failed | Processed | Rejected.

Definition Status_literal (s : Status) : string :=
  match s with
  | Pending => "pending"
  | Processing => "processing"
  | Completed => "completed"
  | Failed => "failed"
  | Processed => "processed"
  | Rejected => "rejected"
  end.

Inductive Recommendation := Interview | Decline.

Definition Recommendation_literal (r : Recommendation) : string :=
  match r with Interview => "interview" | Decline => "decline" end.

Record RowEvaluation := {
  overall_score : number;
  recommendation : Recommendation
}.

Record Candidate := {
  id : Z;
  name : string;
  email : string;
  status : Status;
  job_description_title : string;
  created : string;
  evaluation : option RowEvaluation
}.

(** [CandidateTableProps]; [onReprocess] is optional. *)
Record CandidateTableProps (E : Type) := {
  candidates : list Candidate;
  onViewDetails : Z → E;
  onReprocess : option (Z → E)
}.

Arguments candidates {E} _.
Arguments onViewDetails {E} _ _.
Arguments onReprocess {E} _.

(** The [variants] record of [getStatusBadge]. *)
Definition variants : gmap string BadgeVariant :=
  list_to_map [("pending", Secondary); ("processing", Default);
               ("completed", Outline); ("failed", Destructive)].

(** [variants[status] || 'outline'], for a [status] that names no property
    of [Object.prototype] ('constructor', 'toString', ...: there the lookup
    finds the inherited value); the status literals of the table are none of
    these names. *)
Definition getStatusBadge {E} (status : string) : Element E :=
  Badge (default Outline (variants !! status)) "capitalize" [Text status].

Definition getRecommendationBadge {E} (recommendation : string) : Element E :=
  Badge (if String.eqb recommendation "interview" then Default else Destructive)
        "capitalize" [Text recommendation].

(** The variant chosen by [getScoreBadge]:
    [let variant = 'secondary'; if (score >= 7) variant = 'default';
     else if (score < 5) variant = 'destructive'] *)
Definition scoreVariant (score : number) : BadgeVariant :=
  if Number.ge score (Number.of_Z 7) then Default
  else if Number.lt score (Number.of_Z 5) then Destructive
  else Secondary.

Section Render.
Context `{Runtime} {E : Type}.

Definition getScoreBadge (score : number) : Element E :=
  Node "Badge" [("variant", BadgeVariant_literal (scoreVariant score))] None
       [Text (numberToString score); Text "/10"].

Definition TableCell (props : list (string * string)) (children : list (Element E)) :
    Element E :=
  Node "TableCell" props None children.

(** The last cell of a row: the view button, then the reprocess button when
    [onReprocess && candidate.status === 'failed']. *)
Definition actionsCell (props : CandidateTableProps E) (candidate : Candidate) : Element E :=
  TableCell [("className", "text-right space-x-2")]
    (Button "ghost" "icon" (onViewDetails props (id candidate))
            [Jsx.icon "Eye" "h-4 w-4"]
     :: match onReprocess props with
        | Some reprocess =>
            if String.eqb (Status_literal (status candidate)) "failed"
            then [Button "ghost" "icon" (reprocess (id candidate))
                         [Jsx.icon "RefreshCw" "h-4 w-4"]]
            else []
        | None => []
        end).

(** One [<TableRow key={candidate.id}>]. *)
Definition row (props : CandidateTableProps E) (candidate : Candidate) : Element E :=
  Node "TableRow" [] None
    [ TableCell [("className", "font-medium")] [Text (name candidate)];
      TableCell [] [Text (email candidate)];
      TableCell [] [Text (job_description_title candidate)];
      TableCell [] [getStatusBadge (Status_literal (status candidate))];
      TableCell [] [match evaluation candidate with
                    | Some ev => getScoreBadge (overall_score ev)
                    | None => Text "-"
                    end];
      TableCell [] [match evaluation candidate with
                    | Some ev => getRecommendationBadge
                                   (Recommendation_literal (recommendation ev))
                    | None => Text "-"
                    end];
      TableCell [] [Text (toLocaleDateString (created candidate))];
      actionsCell props candidate ].

Definition emptyRow : Element E :=
  Node "TableRow" [] None
    [TableCell [("colSpan", "8"); ("className", "text-center text-muted-foreground")]
               [Text "No candidates found"]].

(** The rows of [<TableBody>]. *)
Definition bodyRows (props : CandidateTableProps E) : list (Element E) :=
  if Nat.eqb (length (candidates props)) 0 then [emptyRow]
  else map (row props) (candidates props).

Definition headerRow : Element E :=
  Node "TableRow" [] None
    (map (λ h, Node "TableHead" [] None [Text h])
         ["Name"; "Email"; "Position"; "Status"; "Score"; "Recommendation"; "Submitted"]
     ++ [Jsx.el "TableHead" "text-right" [Text "Actions"]]).

Definition CandidateTable (props : CandidateTableProps E) : Element E :=
  Jsx.el "div" "rounded-md border"
    [Node "Table" [] None
       [Node "TableHeader" [] None [headerRow];
        Node "TableBody" [] None (bodyRows props)]].

End Render.

(** Reading a rendered table back. *)

(** The [<TableBody>] rows of a rendered table. *)
Definition renderedRows {E} (table : Element E) : list (Element E) :=
  match Jsx.children_of table with
  | [tbl] => match Jsx.children_of tbl with
             | [_; body] => Jsx.children_of body
             | _ => []
             end
  | _ => []
  end.

(** The buttons in the actions cell (the last cell) of a rendered row. *)
Definition rowActions {E} (r : Element E) : list (Element E) :=
  match last (Jsx.children_of r) with
  | Some cell => filter (λ b, Jsx.tag_of b = "Button") (Jsx.children_of cell)
  | None => []
  end.

(** A reprocess action: a button showing the [RefreshCw] icon. *)
Definition isReprocessAction {E} (b : Element E) : bool :=
  String.eqb (Jsx.tag_of b) "Button" && Jsx.has_child_tag "RefreshCw" b.

Definition offersReprocess {E} (r : Element E) : bool :=
  existsb isReprocessAction (rowActions r).

End CandidateTable.

(** ** components/EvaluationCard *)

Module EvaluationCard.

Inductive Recommendation := Interview | Decline.

Definition Recommendation_literal (r : Recommendation) : string :=
  match r with Interview => "interview" | Decline => "decline" end.

(** Of [detailed_analysis] only [summary] is read by the first card; the
    later cards (strengths, concerns, skills, technical depth, experience)
    read neither [overall_score] nor [recommendation]. *)
Record DetailedAnalysis := { summary : option string }.

Record Evaluation := {
  overall_score : number;
  recommendation : Recommendation;
  detailed_analysis : DetailedAnalysis
}.

Record EvaluationCardProps := {
  evaluation : Evaluation;
  candidateName : string
}.

Definition getScoreColor (score : number) : string :=
  if Number.ge score (Number.of_Z 7) then "text-green-600"
  else if Number.ge score (Number.of_Z 5) then "text-yellow-600"
  else "text-red-600".

(** The recommendation [<Badge>]: variant and content are both chosen by
    [recommendation === 'interview']. *)
Definition recommendationBadge {E} (recommendation : string) : Element E :=
  Badge (if String.eqb recommendation "interview" then Default else Destructive)
        "text-lg px-4 py-1"
        (if String.eqb recommendation "interview"
         then [Jsx.icon "CheckCircle2" "mr-2 h-5 w-5"; Text "Interview"]
         else [Jsx.icon "XCircle" "mr-2 h-5 w-5"; Text "Decline"]).

(** A string is truthy when it is present and not empty. *)
Definition truthy (s : option string) : bool :=
  match s with Some s => negb (String.eqb s "") | None => false end.

Section Render.
Context `{Runtime} {E : Type}.

(** The "Overall Assessment" card. *)
Definition overallAssessment (props : EvaluationCardProps) : Element E :=
  let ev := evaluation props in
  Node "Card" [] None
    [Node "CardHeader" [] None
       [Node "CardTitle" [] None [Text "Overall Assessment"];
        Node "CardDescription" [] None
          [Text "AI-generated evaluation for "; Text (candidateName props)]];
     Jsx.el "CardContent" "space-y-4"
       (Jsx.el "div" "flex items-center justify-between"
          [Node "div" [] None
             [Jsx.el "p" "text-sm font-medium text-muted-foreground" [Text "Overall Score"];
              Jsx.el "p" ("text-4xl font-bold " ++ getScoreColor (overall_score ev))
                [Text (numberToString (overall_score ev)); Text "/10"]];
           Jsx.el "div" "text-right"
             [Jsx.el "p" "text-sm font-medium text-muted-foreground mb-2"
                [Text "Recommendation"];
              recommendationBadge (Recommendation_literal (recommendation ev))]]
        :: if truthy (summary (detailed_analysis ev))
           then [Node "div" [] None
                   [Jsx.el "h4" "font-medium mb-2" [Text "Summary"];
                    Jsx.el "p" "text-sm text-muted-foreground"
                      [Text (default "" (summary (detailed_analysis ev)))]]]
           else [])].

End Render.

(** The badges found in the right-hand column of a rendered card. *)
Definition renderedBadges {E} (card : Element E) : list (Element E) :=
  match Jsx.children_of card with
  | [_; content] =>
      match Jsx.children_of content with
      | topRow :: _ =>
          match Jsx.children_of topRow with
          | [_; rightCol] => filter (λ b, Jsx.tag_of b = "Badge") (Jsx.children_of rightCol)
          | _ => []
          end
      | [] => []
      end
  | _ => []
  end.

End EvaluationCard.

(** ** components/CandidateDetailSheet: the audit trail *)

Module CandidateDetailSheet.

(** A processing-log record as the sheet reads it. *)
Record Log := {
  id : Z;
  stage : string;
  status : string;
  message : option string;
  error_message : option string;
  created : string
}.

(** [s.replace('_', ' ')]: only the first underscore is replaced. *)
Fixpoint replaceUnderscore (s : string) : string :=
  match s with
  | EmptyString => EmptyString
  | String c rest =>
      if Ascii.eqb c "_"%char then String " "%char rest
      else String c (replaceUnderscore rest)
  end.

Definition truthy (s : option string) : bool :=
  match s with Some s => negb (String.eqb s "") | None => false end.

Record State := {
  candidate : option Api.any;
  logs : list Log;
  loading : bool
}.

(** What [Promise.all] of the two requests yields: a rejection, or the
    candidate and the [results] field of the log page (possibly missing). *)
Inductive Response :=
| Rejected
| Resolved (candidateRes : Api.any) (results : option (list Log)).

(** [fetchData]: nothing happens without a candidate id ([null] or [0]);
    otherwise [setLogs(logsRes.data.results || [])] on success, and on a
    rejection only [loading] is reset. *)
Definition fetchData (candidateId : option Z) (response : Response) (st : State) : State :=
  match candidateId with
  | None => st
  | Some i =>
      if Z.eqb i 0 then st
      else match response with
           | Resolved c results =>
               {| candidate := Some c; logs := default [] results; loading := false |}
           | Rejected =>
               {| candidate := candidate st; logs := logs st; loading := false |}
           end
  end.

Section Render.
Context `{Runtime} {E : Type}.

(** One entry of the trail ([<div key={log.id} ...>]). *)
Definition renderEntry (log : Log) : Element E :=
  Jsx.el "div" "flex flex-col gap-1 rounded-md border p-2"
    ([Jsx.el "div" "flex items-center justify-between"
        [Jsx.el "span" "text-xs font-medium uppercase tracking-wide text-muted-foreground"
           [Text (replaceUnderscore (stage log))];
         Badge Outline "text-xs capitalize" [Text (status log)]]]
     ++ (if truthy (message log)
         then [Jsx.el "p" "text-sm" [Text (default "" (message log))]]
         else [])
     ++ (if truthy (error_message log)
         then [Jsx.el "p" "text-xs text-destructive"
                 [Text "Error: "; Text (default "" (error_message log))]]
         else [])
     ++ [Jsx.el "span" "text-xs text-muted-foreground"
           [Text (toLocaleString (created log))]]).

Definition noEvents : Element E :=
  Jsx.el "p" "text-sm text-muted-foreground" [Text "No processing events recorded yet."].

Definition renderAuditTrail (logs : list Log) : Element E :=
  if Nat.eqb (length logs) 0 then noEvents
  else Jsx.el "div" "space-y-3" (map renderEntry logs).

End Render.

(** The entries of a rendered trail: the children of its [<div>]. *)
Definition renderedEntries {E} (trail : Element E) : list (Element E) :=
  if String.eqb (Jsx.tag_of trail) "div" then Jsx.children_of trail else [].

(** Every text shown under an element, in document order. *)
Fixpoint allTexts {E} (e : Element E) : list string :=
  match e with
  | Text s => [s]
  | Node _ _ _ cs => concat (map allTexts cs)
  end.

End CandidateDetailSheet.

(** ** Array.prototype.slice and the order of integers and numbers *)

Module JsArray.

Inductive IntegerOrInfinity := NegInfinity | Finite (z : Z) | PosInfinity.

(** [ToIntegerOrInfinity]: [NaN] and the zeros give 0, the infinities give
    themselves, every other number is truncated towards zero. *)
Definition toIntegerOrInfinity (x : number) : IntegerOrInfinity :=
  match x with
  | S754_nan | S754_zero _ => Finite 0
  | S754_infinity false => PosInfinity
  | S754_infinity true => NegInfinity
  | S754_finite s m e =>
      let magnitude :=
        if (0 <=? e)%Z then Z.shiftl (Z.pos m) e else Z.shiftr (Z.pos m) (- e) in
      Finite (if s then (- magnitude)%Z else magnitude)
  end.

(** The index at which [l.slice(0, end)] stops, for an array of length
    [len]: a negative end counts from the end of the array. *)
Definition sliceFinal (len : nat) (relativeEnd : IntegerOrInfinity) : nat :=
  match relativeEnd with
  | NegInfinity => 0
  | Finite z =>
      if (z <? 0)%Z then Z.to_nat (Z.max (Z.of_nat len + z) 0)
      else Z.to_nat (Z.min z (Z.of_nat len))
  | PosInfinity => len
  end.

(** [l.slice(0, end)] *)
Definition slice0 {A} (l : list A) (end_ : number) : list A :=
  take (sliceFinal (length l) (toIntegerOrInfinity end_)) l.

End JsArray.

(** ** components/FileUpload.tsx *)

Module FileUpload.

Record File := { name : string; size : Z }.

(** [maxFiles?: number], 10 when the prop is absent. *)
Record FileUploadProps := { maxFiles : option number }.

Definition maxFilesOf (props : FileUploadProps) : number :=
  default (Number.of_Z 10) (maxFiles props).

(** [l.filter((x, i) => p(x, i))], the index running from [i]. *)
Fixpoint filterIndexed {A} (p : A → nat → bool) (i : nat) (l : list A) : list A :=
  match l with
  | [] => []
  | x :: rest =>
      if p x i then x :: filterIndexed p (S i) rest
      else filterIndexed p (S i) rest
  end.

(** The component state: the selected files, and the arguments of the calls
    to [onFilesSelected] made so far (latest last). *)
Record State := {
  selectedFiles : list File;
  notified : list (list File)
}.

Definition initial : State := {| selectedFiles := []; notified := [] |}.

Section Handlers.
Variable props : FileUploadProps.

(** [[...selectedFiles, ...acceptedFiles].slice(0, maxFiles)] *)
Definition onDropFiles (selected acceptedFiles : list File) : list File :=
  JsArray.slice0 (selected ++ acceptedFiles) (maxFilesOf props).

(** [selectedFiles.filter((_, i) => i !== index)]; [removeFile] is only ever
    called with the index of a rendered file, a natural number. *)
Definition removeFileAt (index : nat) (selected : list File) : list File :=
  filterIndexed (λ _ i, negb (Nat.eqb i index)) 0 selected.

Definition setAndNotify (newFiles : list File) (st : State) : State :=
  {| selectedFiles := newFiles; notified := notified st ++ [newFiles] |}.

Definition onDrop (acceptedFiles : list File) (st : State) : State :=
  setAndNotify (onDropFiles (selectedFiles st) acceptedFiles) st.

Definition removeFile (index : nat) (st : State) : State :=
  setAndNotify (removeFileAt index (selectedFiles st)) st.

(** The user's operations on the widget. *)
Inductive Op :=
| OnDrop (acceptedFiles : list File)
| RemoveFile (index : nat).

Definition step (st : State) (op : Op) : State :=
  match op with
  | OnDrop acceptedFiles => onDrop acceptedFiles st
  | RemoveFile index => removeFile index st
  end.

Definition run (ops : list Op) : State := foldl step initial ops.

End Handlers.

End FileUpload.

(** ** pages/Dashboard: the statistics of [fetchCandidates] *)

Module Dashboard.

(** The rows are typed [any]; only their [status] is read. *)
Class HasStatus (A : Type) := statusOf : A → string.

#[export] Instance raw_status : HasStatus string := λ s, s.
#[export] Instance api_status : HasStatus Api.Candidate :=
  λ c, Api.CandidateStatus_literal (Api.status c).
#[export] Instance table_status : HasStatus CandidateTable.Candidate :=
  λ c, CandidateTable.Status_literal (CandidateTable.status c).

Record Stats := {
  total : nat;
  pending : nat;
  processing : nat;
  completed : nat;
  failed : nat
}.

Definition initialStats : Stats :=
  {| total := 0; pending := 0; processing := 0; completed := 0; failed := 0 |}.

Section Fetch.
Context {A : Type} `{HasStatus A}.

Definition isPending (c : A) : bool := String.eqb (statusOf c) "pending".
Definition isProcessing (c : A) : bool := String.eqb (statusOf c) "processing".
Definition isCompleted (c : A) : bool :=
  String.eqb (statusOf c) "completed" || String.eqb (statusOf c) "processed".
Definition isFailed (c : A) : bool :=
  String.eqb (statusOf c) "failed" || String.eqb (statusOf c) "rejected".

(** How many of the four counters count a row. *)
Definition counted (c : A) : nat :=
  (Nat.b2n (isPending c) + Nat.b2n (isProcessing c)
   + Nat.b2n (isCompleted c) + Nat.b2n (isFailed c))%nat.

(** [newStats] of [fetchCandidates]. *)
Definition newStats (results : list A) : Stats :=
  {| total := length results;
     pending := length (List.filter isPending results);
     processing := length (List.filter isProcessing results);
     completed := length (List.filter isCompleted results);
     failed := length (List.filter isFailed results) |}.

Record State := {
  candidates : list A;
  stats : Stats;
  loading : bool
}.

(** The body of the fetched page, or a failed request. *)
Inductive Response :=
| Failed
| Json (results : option (list A)).

(** [fetchCandidates]: [setCandidates(data.results || [])], then the
    statistics; reading [data.results.length] of a missing [results] throws
    into the [catch], which leaves the statistics as they were. *)
Definition fetchCandidates (response : Response) (st : State) : State :=
  match response with
  | Failed => {| candidates := candidates st; stats := stats st; loading := false |}
  | Json None => {| candidates := []; stats := stats st; loading := false |}
  | Json (Some results) =>
      {| candidates := results; stats := newStats results; loading := false |}
  end.

End Fetch.

Arguments State A : clear implicits.
Arguments Response A : clear implicits.

(** The statuses the counters recognise. *)
Definition countedStatuses : list string :=
  ["pending"; "processing"; "completed"; "processed"; "failed"; "rejected"].

End Dashboard.

(** ** The state and decision sets the specification names *)

Module Spec.

(** The lifecycle states of the candidate state machine (section 4.1),
    as the specification lists them. *)
Inductive LifecycleState :=
| Submitted | ParsingResume | DetectingProfile | FetchingProfileData
| Evaluating | GeneratingReport | Notifying | Completed | Failed.

Definition LifecycleState_name (s : LifecycleState) : string :=
  match s with
  | Submitted => "Submitted"
  | ParsingResume => "ParsingResume"
  | DetectingProfile => "DetectingProfile"
  | FetchingProfileData => "FetchingProfileData"
  | Evaluating => "Evaluating"
  | GeneratingReport => "GeneratingReport"
  | Notifying => "Notifying"
  | Completed => "Completed"
  | Failed => "Failed"
  end.

Definition lifecycleStates : list LifecycleState :=
  [Submitted; ParsingResume; DetectingProfile; FetchingProfileData;
   Evaluating; GeneratingReport; Notifying; Completed; Failed].

Definition lowerAscii (c : ascii) : ascii :=
  let n := nat_of_ascii c in
  if Nat.leb 65 n && Nat.leb n 90 then ascii_of_nat (n + 32) else c.

Fixpoint lowercase (s : string) : string :=
  match s with
  | EmptyString => EmptyString
  | String c rest => String (lowerAscii c) (lowercase rest)
  end.

(** A status literal of the code stands for a lifecycle state when it is
    that state's name, letter case aside. *)
Definition isLifecycleState (literal : string) : bool :=
  existsb (λ s, String.eqb (lowercase (LifecycleState_name s)) (lowercase literal))
          lifecycleStates.

(** The decision set of a StakeholderFeedback (section 3). *)
Definition decisions : list string := ["interview"; "decline"; "comment-only"].

End Spec.

(** ** Sample values *)

Module Sample.

(** A rendering environment that prints dates as they are stored. *)
Definition runtime : Runtime :=
  {| numberToString := λ _, "n"; toLocaleString := λ s, s; toLocaleDateString := λ s, s |}.

Definition jobDescription : Api.JobDescription :=
  {| Api.jd_id := 1; Api.jd_title := "Engineer"; Api.jd_description := "Backend";
     Api.jd_requirements := None; Api.jd_is_active := true;
     Api.jd_created := "2024-01-01"; Api.jd_modified := "2024-01-01" |}.

Definition apiCandidate (st : Api.CandidateStatus) : Api.Candidate :=
  {| Api.id := 1; Api.name := "Ada"; Api.email := "ada@example.org";
     Api.phone := None; Api.linkedin_url := None; Api.github_url := None;
     Api.status := st; Api.celery_task_id := None; Api.error_message := None;
     Api.audit_log := []; Api.job_description := jobDescription;
     Api.submitted_by := 1; Api.created := "2024-01-01";
     Api.modified := "2024-01-01"; Api.resume := None; Api.evaluation := None |}.

Definition feedback (d : Api.Decision) : Api.StakeholderFeedback :=
  {| Api.f_id := 1; Api.comments := "later"; Api.decision := d;
     Api.f_evaluation := 1; Api.stakeholder := 1;
     Api.f_created := "2024-01-02"; Api.f_modified := "2024-01-02" |}.

Definition tableCandidate (i : Z) (st : CandidateTable.Status) : CandidateTable.Candidate :=
  {| CandidateTable.id := i; CandidateTable.name := "Ada";
     CandidateTable.email := "ada@example.org"; CandidateTable.status := st;
     CandidateTable.job_description_title := "Engineer";
     CandidateTable.created := "2024-01-01"; CandidateTable.evaluation := None |}.

(** The events of the dashboard: which handler ran, on which candidate. *)
Inductive Event := ViewDetails (candidateId : Z) | Reprocess (candidateId : Z).

Definition tableProps (cs : list CandidateTable.Candidate) :
    CandidateTable.CandidateTableProps Event :=
  {| CandidateTable.candidates := cs;
     CandidateTable.onViewDetails := ViewDetails;
     CandidateTable.onReprocess := Some Reprocess |}.

Definition log (i : Z) (stage : string) (message error : option string) :
    CandidateDetailSheet.Log :=
  {| CandidateDetailSheet.id := i; CandidateDetailSheet.stage := stage;
     CandidateDetailSheet.status := "success"; CandidateDetailSheet.message := message;
     CandidateDetailSheet.error_message := error;
     CandidateDetailSheet.created := "2024-01-01T10:00:00Z" |}.

Definition file (n : string) : FileUpload.File :=
  {| FileUpload.name := n; FileUpload.size := 1024 |}.

End Sample.

(** ** The statements under study *)

Module Claims.

(** The variant of the badge [getScoreBadge] renders for a score. *)
Definition scoreBadgeVariant `{Runtime} (s : number) : option string :=
  Jsx.prop_of "variant" (CandidateTable.getScoreBadge (E:=Empty_set) s).

(** The table's badge and the card's colour classify a score alike, with
    the thresholds 7 and 5. *)
Definition sameClassification `{Runtime} (s : number) : Prop :=
  (scoreBadgeVariant s = Some "default"
     ↔ EvaluationCard.getScoreColor s = "text-green-600") ∧
  (scoreBadgeVariant s = Some "destructive"
     ↔ EvaluationCard.getScoreColor s = "text-red-600") ∧
  (scoreBadgeVariant s = Some "secondary"
     ↔ EvaluationCard.getScoreColor s = "text-yellow-600").

Definition thresholds (s : number) : Prop :=
  (EvaluationCard.getScoreColor s = "text-green-600"
     ↔ Number.ge s (Number.of_Z 7) = true) ∧
  (EvaluationCard.getScoreColor s = "text-red-600"
     ↔ Number.lt s (Number.of_Z 5) = true) ∧
  (EvaluationCard.getScoreColor s = "text-yellow-600"
     ↔ Number.ge s (Number.of_Z 5) = true ∧ Number.lt s (Number.of_Z 7) = true).

(** The four counters add up to the total. *)
Definition partitions (st : Dashboard.Stats) : Prop :=
  Dashboard.pending st + Dashboard.processing st
  + Dashboard.completed st + Dashboard.failed st = Dashboard.total st.

End Claims.

(** ** components/FileUpload.tsx: what the drop zone is told *)

Module FileUploadView.
Import FileUpload.

(** [selectedFiles.length] as a number. *)
Definition lengthNumber (st : State) : number :=
  Number.of_Z (Z.of_nat (length (selectedFiles st))).

(** [maxFiles: maxFiles - selectedFiles.length], the limit handed to
    [useDropzone]: a subtraction of binary64 numbers. *)
Definition dropzoneMaxFiles (props : FileUploadProps) (st : State) : number :=
  SFsub Number.prec Number.emax (maxFilesOf props) (lengthNumber st).

(** [disabled={selectedFiles.length >= maxFiles}] of the file input. *)
Definition inputDisabled (props : FileUploadProps) (st : State) : bool :=
  Number.ge (lengthNumber st) (maxFilesOf props).

(** The "Selected Files" list is rendered under [selectedFiles.length > 0]. *)
Definition showsSelectedList (st : State) : bool :=
  Nat.ltb 0 (length (selectedFiles st)).

(** The files handed to [onDrop] by a sequence of operations, in order. *)
Definition droppedFiles (ops : list Op) : list File :=
  concat (omap (λ op, match op with
                      | OnDrop acceptedFiles => Some acceptedFiles
                      | RemoveFile _ => None
                      end) ops).

End FileUploadView.

(** ** components/CandidateTable.tsx: reading a rendered row *)

Module CandidateTableView.
Import CandidateTable.

(** The [onClick] handlers of the buttons of a rendered row. *)
Definition rowHandlers {E} (r : Element E) : list E :=
  omap Jsx.onClick_of (rowActions r).

(** The variant of a rendered badge. *)
Definition variantOf {E} (badge : Element E) : option string :=
  Jsx.prop_of "variant" badge.

#[export] Instance Status_eq_dec : EqDecision Status.
Proof. solve_decision. Defined.

End CandidateTableView.

(** ** components/CandidateDetailSheet: status badge, actions, analysis *)

Module CandidateDetailSheetView.
Import CandidateDetailSheet.

(** The [variants] record of [renderStatusBadge]. *)
Definition variants : gmap string BadgeVariant :=
  list_to_map [("pending", Secondary); ("processing", Default);
               ("completed", Outline); ("failed", Destructive);
               ("processed", Default); ("rejected", Destructive)].

(** [variants[status] || 'outline'], for a [status] that names no property
    of [Object.prototype], as in [CandidateTableView.getStatusBadge]. *)
Definition renderStatusBadge {E} (status : string) : Element E :=
  Badge (default Outline (variants !! status)) "capitalize" [Text status].

End CandidateDetailSheetView.

(** ** JSON values, as [any]-typed payloads are read *)

Module Json.

#[warnings="-register-all"]
Inductive value :=
| JNull
| JBool (b : bool)
| JNum (n : number)
| JStr (s : string)
| JArr (items : list value)
| JObj (fields : list (string * value)).

(** [ToBoolean]: [null], [false], [0], [NaN] and [''] are falsy; arrays and
    objects are truthy, empty ones included. *)
Definition truthy (v : value) : bool :=
  match v with
  | JNull => false
  | JBool b => b
  | JNum (S754_zero _) | JNum S754_nan => false
  | JNum _ => true
  | JStr s => negb (String.eqb s "")
  | JArr _ | JObj _ => true
  end.

(** Truthiness of a possibly [undefined] value. *)
Definition truthyOpt (v : option value) : bool :=
  match v with Some v => truthy v | None => false end.

Fixpoint assoc (key : string) (fields : list (string * value)) : option value :=
  match fields with
  | [] => None
  | (k, v) :: rest => if String.eqb k key then Some v else assoc key rest
  end.

(** [v.key], for a key no prototype defines: [undefined] unless [v] is an
    object with that key (the keys of a parsed object are distinct). *)
Definition get (key : string) (v : value) : option value :=
  match v with
  | JObj fields => assoc key fields
  | _ => None
  end.

(** [a || b] *)
Definition orElse (a : option value) (b : option value) : option value :=
  if truthyOpt a then a else b.

End Json.

(** [JSON.stringify(v)] and [JSON.stringify(v, null, 2)]. *)
Class JsonText := {
  stringify : Json.value → string;
  stringifyPretty : Json.value → string
}.

(** ** components/CandidateDetailSheet: handlers and analysis sections *)

Module CandidateDetailSheetActions.
Import CandidateDetailSheet.

(** [status: 'processed' | 'rejected'] of [handleStatusChange]. *)
Inductive ManualStatus := MarkProcessed | MarkRejected.

Definition ManualStatus_literal (s : ManualStatus) : string :=
  match s with MarkProcessed => "processed" | MarkRejected => "rejected" end.

(** What a handler does to the outside, in order. *)
Inductive Effect :=
| PostSetStatus (candidateId : Z) (status : string)
    (* client.post(`/recruitment/candidates/${candidateId}/set-status/`, { status }) *)
| DeleteCandidate (candidateId : Z)
    (* client.delete(`/recruitment/candidates/${candidateId}/`) *)
| GetSheetData (candidateId : Z)
    (* the two requests of fetchData *)
| OnCandidateUpdated
| OnOpenChange (open : bool)
| ConsoleError (message : string).

#[export] Instance Effect_eq_dec : EqDecision Effect.
Proof. solve_decision. Defined.

Record SheetState := {
  sheet : State;
  actionLoading : bool
}.

(** [!candidateId] is false: the id is neither [null] nor [0]. *)
Definition hasId (candidateId : option Z) : bool :=
  match candidateId with Some i => negb (Z.eqb i 0) | None => false end.

(** The requests and log lines of [fetchData]. *)
Definition fetchDataEffects (candidateId : option Z) (response : Response) : list Effect :=
  match candidateId with
  | None => []
  | Some i =>
      if Z.eqb i 0 then []
      else GetSheetData i
           :: match response with
              | Resolved _ _ => []
              | Rejected => [ConsoleError "Failed to fetch candidate sheet data:"]
              end
  end.

(** [handleStatusChange]: post the status; when the post resolves, refresh
    the sheet and tell the parent; when it rejects, log.  [posted] says
    whether the post resolved, [refresh] is what the refresh receives. *)
Definition handleStatusChange (candidateId : option Z) (status : ManualStatus)
    (posted : bool) (refresh : Response) (st : SheetState) : SheetState * list Effect :=
  match candidateId with
  | None => (st, [])
  | Some i =>
      if Z.eqb i 0 then (st, [])
      else if posted then
        ({| sheet := fetchData candidateId refresh (sheet st); actionLoading := false |},
         (PostSetStatus i (ManualStatus_literal status)
          :: fetchDataEffects candidateId refresh ++ [OnCandidateUpdated])%list)
      else
        ({| sheet := sheet st; actionLoading := false |},
         [PostSetStatus i (ManualStatus_literal status);
          ConsoleError "Failed to update candidate status:"])
  end.

(** [handleDelete]: delete; when it resolves, tell the parent and close the
    sheet; when it rejects, log. *)
Definition handleDelete (candidateId : option Z) (deleted : bool) (st : SheetState) :
    SheetState * list Effect :=
  match candidateId with
  | None => (st, [])
  | Some i =>
      if Z.eqb i 0 then (st, [])
      else if deleted then
        ({| sheet := sheet st; actionLoading := false |},
         [DeleteCandidate i; OnCandidateUpdated; OnOpenChange false])
      else
        ({| sheet := sheet st; actionLoading := false |},
         [DeleteCandidate i; ConsoleError "Failed to delete candidate:"])
  end.

Section Render.
Context `{JsonText} {E : Type}.

Definition noWorkExperience : Element E :=
  Jsx.el "p" "text-sm text-muted-foreground" [Text "No work experience data available."].

Definition noAnalysis : Element E :=
  Jsx.el "p" "text-sm text-muted-foreground" [Text "No analysis data available yet."].

(** [detailed.work_experience || detailed.experience || detailed] *)
Definition workOf (detailed : Json.value) : Json.value :=
  default detailed
    (Json.orElse
       (Json.orElse (Json.get "work_experience" detailed) (Json.get "experience" detailed))
       (Some detailed)).

(** [typeof item === 'string' ? item : JSON.stringify(item)] *)
Definition itemText (item : Json.value) : string :=
  match item with Json.JStr s => s | _ => stringify item end.

(** [renderWorkExperience], on [candidate?.evaluation?.detailed_analysis]. *)
Definition renderWorkExperience (detailed : option Json.value) : Element E :=
  match detailed with
  | None => noWorkExperience
  | Some d =>
      if negb (Json.truthy d) then noWorkExperience
      else match workOf d with
           | Json.JArr items =>
               Jsx.el "ul" "list-disc space-y-1 pl-5 text-sm"
                 (map (λ item, Node "li" [] None [Text (itemText item)]) items)
           | Json.JStr s => Jsx.el "p" "text-sm whitespace-pre-line" [Text s]
           | work =>
               Jsx.el "pre" "max-h-64 overflow-auto rounded-md bg-muted p-2 text-xs"
                 [Text (stringifyPretty work)]
           end
  end.

(** [renderResumeAnalysis] *)
Definition renderResumeAnalysis (detailed : option Json.value) : Element E :=
  match detailed with
  | None => noAnalysis
  | Some d =>
      if negb (Json.truthy d) then noAnalysis
      else Jsx.el "pre" "max-h-64 overflow-auto rounded-md bg-muted p-2 text-xs"
             [Text (stringifyPretty d)]
  end.

End Render.

End CandidateDetailSheetActions.

(** ** components/EvaluationCard: the cards after the first *)

Module EvaluationCardSections.
Import EvaluationCard.

(** A value of [skill_matches]. *)
Record SkillMatch := {
  sm_score : number;
  matched : bool;
  evidence : string
}.

Record TechnicalDepth := {
  td_score : number;
  td_notes : string
}.

Record ExperienceAssessment := {
  years_of_experience : number;
  meets_requirement : bool;
  ea_notes : string
}.

(** [detailed_analysis] in full; [skill_matches] is kept as its
    [Object.entries], in their order. *)
Record Analysis := {
  a_summary : option string;
  key_highlights : option (list string);
  concerns : option (list string);
  skill_matches : option (list (string * SkillMatch));
  technical_depth : option TechnicalDepth;
  experience_assessment : option ExperienceAssessment
}.

Record FullEvaluation := {
  fe_overall_score : number;
  fe_recommendation : Recommendation;
  fe_detailed_analysis : Analysis
}.

Record Props := {
  p_evaluation : FullEvaluation;
  p_candidateName : string
}.

(** The part of the props the first card reads. *)
Definition firstCardProps (props : Props) : EvaluationCardProps :=
  {| evaluation :=
       {| overall_score := fe_overall_score (p_evaluation props);
          recommendation := fe_recommendation (p_evaluation props);
          detailed_analysis :=
            {| summary := a_summary (fe_detailed_analysis (p_evaluation props)) |} |};
     candidateName := p_candidateName props |}.

(** [l && l.length > 0] *)
Definition nonEmpty {A} (l : option (list A)) : bool :=
  match l with Some (_ :: _) => true | _ => false end.

Section Render.
Context `{Runtime} {E : Type}.

Definition titledCard (title : string) (content : list (Element E)) : Element E :=
  Node "Card" [] None
    [Node "CardHeader" [] None [Jsx.el "CardTitle" "text-lg" [Text title]];
     Node "CardContent" [] None content].

(** The list of a "Key Strengths" / "Areas of Concern" card. *)
Definition bulletList (iconName iconClass : string) (items : list string) : Element E :=
  Jsx.el "ul" "space-y-2"
    (map (λ item, Jsx.el "li" "flex items-start"
                    [Jsx.icon iconName iconClass; Jsx.el "span" "text-sm" [Text item]])
         items).

(** One skill of the "Skills Assessment" card. *)
Definition skillRow (entry : string * SkillMatch) : Element E :=
  let (skill, data) := entry in
  Node "div" [] None
    ([Jsx.el "div" "flex items-center justify-between mb-1"
        [Jsx.el "span" "text-sm font-medium flex items-center"
           [if matched data then Jsx.icon "CheckCircle2" "h-4 w-4 text-green-600 mr-2"
            else Jsx.icon "XCircle" "h-4 w-4 text-red-600 mr-2";
            Text skill];
         Jsx.el "span" "text-sm text-muted-foreground"
           [Text (numberToString (sm_score data)); Text "/10"]];
      Node "Progress"
        [("value", numberToString
                     (SFmul Number.prec Number.emax (sm_score data) (Number.of_Z 10)));
         ("className", "h-2")] None []]
     ++ (if negb (String.eqb (evidence data) "")
         then [Jsx.el "p" "text-xs text-muted-foreground mt-1" [Text (evidence data)]]
         else []))%list.

(** [Object.entries(skill_matches).slice(0, 10).map(...)] *)
Definition skillRows (entries : list (string * SkillMatch)) : list (Element E) :=
  map skillRow (take 10 entries).

Definition technicalDepthCard (td : TechnicalDepth) : Element E :=
  titledCard "Technical Depth"
    [Jsx.el "div" "flex items-center space-x-2 mb-2"
       [Jsx.icon "Star" ("h-5 w-5 " ++ getScoreColor (td_score td));
        Jsx.el "span" "text-2xl font-bold"
          [Text (numberToString (td_score td)); Text "/10"]];
     Jsx.el "p" "text-sm text-muted-foreground" [Text (td_notes td)]].

Definition experienceCard (ea : ExperienceAssessment) : Element E :=
  titledCard "Experience"
    [Jsx.el "div" "space-y-2"
       [Jsx.el "p" "text-sm"
          [Jsx.el "span" "font-medium" [Text "Years:"]; Text " ";
           Text (numberToString (years_of_experience ea))];
        Jsx.el "p" "text-sm"
          [Jsx.el "span" "font-medium" [Text "Meets Requirement:"]; Text " ";
           if meets_requirement ea
           then Node "Badge" [("variant", "outline")] None [Text "Yes"]
           else Node "Badge" [("variant", "destructive")] None [Text "No"]];
        Jsx.el "p" "text-xs text-muted-foreground" [Text (ea_notes ea)]]].

(** The whole [EvaluationCard]. *)
Definition EvaluationCard (props : Props) : Element E :=
  let da := fe_detailed_analysis (p_evaluation props) in
  Jsx.el "div" "space-y-4"
    ([overallAssessment (firstCardProps props)]
     ++ (if nonEmpty (key_highlights da)
         then [titledCard "Key Strengths"
                 [bulletList "CheckCircle2"
                    "h-5 w-5 text-green-600 mr-2 flex-shrink-0 mt-0.5"
                    (default [] (key_highlights da))]]
         else [])
     ++ (if nonEmpty (concerns da)
         then [titledCard "Areas of Concern"
                 [bulletList "XCircle"
                    "h-5 w-5 text-red-600 mr-2 flex-shrink-0 mt-0.5"
                    (default [] (concerns da))]]
         else [])
     ++ match skill_matches da with
        | Some entries =>
            [titledCard "Skills Assessment"
               [Jsx.el "div" "space-y-3" (skillRows entries)]]
        | None => []
        end
     ++ [Jsx.el "div" "grid grid-cols-1 md:grid-cols-2 gap-4"
           (match technical_depth da with
            | Some td => [technicalDepthCard td]
            | None => []
            end
            ++ match experience_assessment da with
               | Some ea => [experienceCard ea]
               | None => []
               end)])%list.

End Render.

(** The titles of the cards of a rendering, in document order. *)
Fixpoint cardTitles {E} (e : Element E) : list string :=
  match e with
  | Text _ => []
  | Node tag _ _ cs =>
      if String.eqb tag "CardTitle"
      then omap (λ c, match c with Text s => Some s | Node _ _ _ _ => None end) cs
      else concat (map cardTitles cs)
  end.

(** The skill names shown by a rendered skills list: the text of each
    row's label. *)
Definition shownSkills {E} (rows : list (Element E)) : list string :=
  concat (map (λ r, match Jsx.children_of r with
                    | heading :: _ =>
                        match Jsx.children_of heading with
                        | label :: _ => Jsx.texts_of label
                        | [] => []
                        end
                    | [] => []
                    end) rows).

End EvaluationCardSections.

(** ** String helpers of the language *)

Module Str.

(** [s.split(sep)] for a non-empty [sep]: [skip] counts the characters of a
    separator just matched that are still to be passed over, [cur] is the
    piece being collected. *)
Fixpoint splitGo (sep : string) (skip : nat) (cur : string) (s : string) : list string :=
  match s with
  | EmptyString => [cur]
  | String c rest =>
      match skip with
      | S k => splitGo sep k cur rest
      | O =>
          if String.prefix sep s
          then cur :: splitGo sep (String.length sep - 1) "" rest
          else splitGo sep 0 (cur ++ String c "") rest
      end
  end.

Definition split (sep s : string) : list string := splitGo sep 0 "" s.

(** [sep] occurs somewhere in [s]. *)
Fixpoint includes (sep s : string) : bool :=
  String.prefix sep s
  || match s with
     | EmptyString => false
     | String _ rest => includes sep rest
     end.

(** No occurrence of [sep] in [pre ++ tail] starts within [pre]. *)
Fixpoint noMatchWithin (sep pre tail : string) : bool :=
  match pre with
  | EmptyString => true
  | String _ p => negb (String.prefix sep (pre ++ tail)) && noMatchWithin sep p tail
  end.

End Str.

(** ** pages/UploadResumes *)

Module UploadResumes.

Record State := {
  files : list FileUpload.File;
  jobDescriptions : list Api.JobDescription;
  selectedJobId : string;
  loading : bool;
  message : string
}.

Definition initial : State :=
  {| files := []; jobDescriptions := []; selectedJobId := "";
     loading := false; message := "" |}.

(** [id.toString()] of an integer id. *)
Definition idToString (i : Z) : string := pretty i.

(** The values of the [<option>]s of the job select: the placeholder, then
    one per job description. *)
Definition optionValues (st : State) : list string :=
  "" :: map (λ job, idToString (Api.jd_id job)) (jobDescriptions st).

Inductive JobsResponse :=
| JobsFailed
| JobsJson (results : option (list Api.JobDescription)).

(** [fetchJobDescriptions]: [setJobDescriptions(data.results || [])], and the
    first job is preselected when there is one. *)
Definition fetchJobDescriptions (response : JobsResponse) (st : State) : State :=
  match response with
  | JobsFailed => st
  | JobsJson results =>
      {| files := files st;
         jobDescriptions := default [] results;
         selectedJobId := match results with
                          | Some (job :: _) => idToString (Api.jd_id job)
                          | _ => selectedJobId st
                          end;
         loading := loading st;
         message := message st |}
  end.

(** [onFilesSelected={setFiles}] *)
Definition setFiles (newFiles : list FileUpload.File) (st : State) : State :=
  {| files := newFiles; jobDescriptions := jobDescriptions st;
     selectedJobId := selectedJobId st; loading := loading st; message := message st |}.

(** [onChange={(e) => setSelectedJobId(e.target.value)}]: the user picks the
    [k]-th option of the select (nothing changes if there is none). *)
Definition selectOption (k : nat) (st : State) : State :=
  match optionValues st !! k with
  | Some v =>
      {| files := files st; jobDescriptions := jobDescriptions st;
         selectedJobId := v; loading := loading st; message := message st |}
  | None => st
  end.

(** [document.cookie.split('csrftoken=')[1]?.split(';')[0] || ''] *)
Definition csrfTokenOf (cookie : string) : string :=
  match Str.split "csrftoken=" cookie !! 1 with
  | Some part => default "" (head (Str.split ";" part))
  | None => ""
  end.

Inductive FormPart := FilePart (f : FileUpload.File) | TextPart (s : string).

(** What the upload request brings back. *)
Inductive UploadResponse :=
| Accepted (candidates : nat)        (* response.ok; data.candidates.length *)
| Refused (error : option string)    (* !response.ok; the body's error field *)
| Threw.                             (* fetch or reading the body throws *)

Inductive Effect :=
| PostUpload (formData : list (string * FormPart)) (csrfToken : string)
| NavigateLater (ms : nat) (path : string)   (* setTimeout(() => navigate(path), ms) *)
| ConsoleError (message : string).

Definition withMessage (loadingNow : bool) (msg : string) (st : State) : State :=
  {| files := files st; jobDescriptions := jobDescriptions st;
     selectedJobId := selectedJobId st; loading := loadingNow; message := msg |}.

(** The form data of the request: one 'resumes' part per file, then the job
    description id. *)
Definition formDataOf (st : State) : list (string * FormPart) :=
  (map (λ f, ("resumes", FilePart f)) (files st)
   ++ [("job_description_id", TextPart (selectedJobId st))])%list.

(** [handleSubmit]; the state returned is the one after [finally]. *)
Definition handleSubmit (cookie : string) (response : UploadResponse) (st : State) :
    State * list Effect :=
  if Nat.eqb (length (files st)) 0
  then (withMessage (loading st) "Please select at least one resume file." st, [])
  else if String.eqb (selectedJobId st) ""
  then (withMessage (loading st) "Please select a job description." st, [])
  else
    let request := PostUpload (formDataOf st) (csrfTokenOf cookie) in
    match response with
    | Accepted n =>
        (withMessage false
           ("Successfully uploaded " ++ pretty n ++ " resume(s). Processing started.") st,
         [request; NavigateLater 2000 "/"])
    | Refused error =>
        (withMessage false
           ("Error: " ++ match error with
                         | Some e => if String.eqb e "" then "Failed to upload resumes" else e
                         | None => "Failed to upload resumes"
                         end) st,
         [request])
    | Threw =>
        (withMessage false "An error occurred while uploading resumes." st,
         [request; ConsoleError "Upload error:"])
    end.

(** The banner under the file picker: rendered for a non-empty message, in
    the destructive style when the message starts with 'Error'. *)
Definition messageBanner {E} (msg : string) : list (Element E) :=
  if String.eqb msg "" then []
  else [Jsx.el "div"
          ("p-4 rounded-md "
           ++ (if String.prefix "Error" msg
               then "bg-destructive/10 text-destructive"
               else "bg-green-50 text-green-800"))
          [Text msg]].

(** [disabled={loading || files.length === 0}] of the submit button. *)
Definition submitDisabled (st : State) : bool :=
  loading st || Nat.eqb (length (files st)) 0.

(** The label of the submit button. *)
Definition submitLabel (st : State) : string :=
  if loading st then "Uploading..."
  else "Upload " ++ pretty (length (files st)) ++ " Resume"
       ++ (if Nat.eqb (length (files st)) 1 then "" else "s").

(** The form data parts named 'resumes'. *)
Definition resumeParts (formData : list (string * FormPart)) : list (string * FormPart) :=
  List.filter (λ part, String.eqb (fst part) "resumes") formData.

(** The form data of the requests among some effects. *)
Definition requestsOf (effects : list Effect) : list (list (string * FormPart)) :=
  omap (λ e, match e with PostUpload fd _ => Some fd | _ => None end) effects.

(** The page's [files] after the widget, created with [maxFiles={10}], has
    gone through a sequence of operations: the argument of the last call of
    [onFilesSelected], or the initial empty list. *)
Definition filesFromWidget (ops : list FileUpload.Op) : list FileUpload.File :=
  default []
    (last (FileUpload.notified
             (FileUpload.run {| FileUpload.maxFiles := Some (Number.of_Z 10) |} ops))).

(** The form passes the checks of [handleSubmit]: a file and a job are
    selected. *)
Definition validForm (st : State) : bool :=
  negb (Nat.eqb (length (files st)) 0) && negb (String.eqb (selectedJobId st) "").

Definition isRefused (response : UploadResponse) : bool :=
  match response with Refused _ => true | _ => false end.

End UploadResumes.

(** ** pages/Dashboard: the table it renders *)

Module DashboardView.
Import Dashboard.

(** The handlers the dashboard passes to the table. *)
Inductive Event :=
| HandleViewDetails (candidateId : Z)
| HandleReprocess (candidateId : Z).

(** [<CandidateTable candidates={candidates} onViewDetails={handleViewDetails}
      onReprocess={handleReprocess} />] *)
Definition tableProps (st : State CandidateTable.Candidate) :
    CandidateTable.CandidateTableProps Event :=
  {| CandidateTable.candidates := candidates st;
     CandidateTable.onViewDetails := HandleViewDetails;
     CandidateTable.onReprocess := Some HandleReprocess |}.

(** The "Candidates" panel: a loading line, or the table. *)
Definition candidatesPanel `{Runtime} (st : State CandidateTable.Candidate) : Element Event :=
  if loading st then Jsx.el "div" "text-center py-8" [Text "Loading..."]
  else CandidateTable.CandidateTable (tableProps st).

(** The statistics agree with the list the table shows. *)
Definition consistent {A} `{HasStatus A} (st : State A) : Prop :=
  stats st = newStats (candidates st).

(** The dashboard as it is mounted. *)
Definition initialState {A} : State A :=
  {| candidates := []; stats := initialStats; loading := true |}.

End DashboardView.

(** ** components/main-layout.tsx: the breadcrumbs *)

Module MainLayout.

Record Crumb := { label : string; href : option string }.

Definition hrefTruthy (c : Crumb) : bool :=
  match href c with Some h => negb (String.eqb h "") | None => false end.

(** One [<div key={crumb.label}>] of the breadcrumb list. *)
Definition crumbItem {E} (index : nat) (crumb : Crumb) : Element E :=
  Node "div" [] None
    ((if Nat.ltb 0 index then [Node "BreadcrumbSeparator" [] None []] else [])
     ++ [Node "BreadcrumbItem" [] None
           [if hrefTruthy crumb
            then Node "BreadcrumbLink" [("href", default "" (href crumb))] None
                      [Text (label crumb)]
            else Node "BreadcrumbPage" [] None [Text (label crumb)]]])%list.

(** [breadcrumbs && breadcrumbs.length > 0 && (<Breadcrumb>...)] *)
Definition breadcrumbNav {E} (breadcrumbs : option (list Crumb)) : list (Element E) :=
  match breadcrumbs with
  | Some (c :: cs) =>
      [Node "Breadcrumb" [] None
         [Node "BreadcrumbList" [] None (imap crumbItem (c :: cs))]]
  | _ => []
  end.

(** How many elements with a given tag a rendering holds. *)
Fixpoint countTag {E} (tag : string) (e : Element E) : nat :=
  match e with
  | Text _ => 0
  | Node t _ _ cs =>
      ((if String.eqb t tag then 1 else 0) + list_sum (map (countTag tag) cs))%nat
  end.

End MainLayout.

(** ** More sample values *)

Module Sample2.

(** A JSON printer that only tells the kinds of values apart. *)
Definition jsonText : JsonText :=
  {| stringify := λ v, match v with
                       | Json.JNull => "null"
                       | Json.JBool _ => "bool"
                       | Json.JNum _ => "number"
                       | Json.JStr s => s
                       | Json.JArr _ => "[...]"
                       | Json.JObj _ => "{...}"
                       end;
     stringifyPretty := λ _, "{ ... }" |}.

Definition analysisWithExperience : Json.value :=
  Json.JObj [("summary", Json.JStr "Solid");
             ("work_experience", Json.JStr "");
             ("experience", Json.JArr [Json.JStr "Acme, 2019-2023";
                                       Json.JObj [("company", Json.JStr "Initech")]])].

End Sample2.

(** ** Evaluations that name a candidate *)

(** What the drop zone and the file input are given, as a table over the
    number of selected files, for an integer [maxFiles]. *)
Module FileUploadCapacity.

#[export] Instance number_eq_dec : EqDecision number.
Proof. solve_decision. Defined.

#[export] Instance IntegerOrInfinity_eq_dec : EqDecision JsArray.IntegerOrInfinity.
Proof. solve_decision. Defined.

Definition capacityRow (n len : nat) : bool :=
  let maxFiles := Number.of_Z (Z.of_nat n) in
  let selected := Number.of_Z (Z.of_nat len) in
  let left := SFsub Number.prec Number.emax maxFiles selected in
  bool_decide (left = Number.of_Z (Z.of_nat n - Z.of_nat len))
  && Number.ge left (Number.of_Z 0)
  && bool_decide (Number.ge selected maxFiles = bool_decide (left = Number.of_Z 0))
  && bool_decide (Number.ge selected maxFiles = bool_decide (len = n)).

Definition capacityTable (bound : nat) : bool :=
  forallb (λ n,
    bool_decide (JsArray.toIntegerOrInfinity (Number.of_Z (Z.of_nat n))
                 = JsArray.Finite (Z.of_nat n))
    && forallb (capacityRow n) (seq 0 (S n))) (seq 0 (S bound)).

End FileUploadCapacity.

Module EvaluationStore.
Import Api.

(** The evaluations of a collection that reference a candidate: those whose
    [candidate] field is the candidate's id. *)
Definition evaluationsOf (candidateId : Z) (store : list Evaluation) : list Evaluation :=
  List.filter (λ e, Z.eqb (e_candidate e) candidateId) store.

(** An evaluation record with the given id, naming the given candidate. *)
Definition evaluationFor (evaluationId candidateId : Z) : Evaluation :=
  {| e_id := evaluationId; overall_score := Number.of_Z 7; resume_score := Number.of_Z 7;
     github_score := None; linkedin_score := None; ai_summary := "";
     recommendation := Interview; github_analysis := None; linkedin_analysis := None;
     generated_report := None; e_candidate := candidateId;
     e_created := ""; e_modified := "" |}.

(** A candidate value that carries the evaluation [e]. *)
Definition candidateWith (e : Evaluation) : Candidate :=
  {| id := 1; name := "Ada"; email := "ada@example.org";
     phone := None; linkedin_url := None; github_url := None;
     status := Completed; celery_task_id := None; error_message := None;
     audit_log := []; job_description := Sample.jobDescription;
     submitted_by := 1; created := "2024-01-01";
     modified := "2024-01-01"; resume := None; evaluation := Some e |}.

(** [n] records with the ids 0 .. n-1, all naming the same candidate. *)
Definition recordsFor (candidateId : Z) (n : nat) : list Evaluation :=
  map (λ k, evaluationFor (Z.of_nat k) candidateId) (seq 0 n).

End EvaluationStore.

(** ** What an audit-trail entry is to show *)

Module AuditTrailSpec.
Import CandidateDetailSheet.

(** The stage with its first underscore, if any, turned into a space, said
    with the library's [index] and [substring]. *)
Definition expectedStage (stage : string) : string :=
  match String.index 0 "_" stage with
  | Some i =>
      substring 0 i stage ++ " "
      ++ substring (S i) (String.length stage - S i) stage
  | None => stage
  end.

(** The texts of an entry: stage, status, the message and the error detail
    when they are non-empty strings, and the formatted creation time. *)
Definition expectedTexts `{Runtime} (log : Log) : list string :=
  ([expectedStage (stage log); status log]
   ++ match message log with
      | Some m => if String.eqb m "" then [] else [m]
      | None => []
      end
   ++ match error_message log with
      | Some e => if String.eqb e "" then [] else ["Error: "; e]
      | None => []
      end
   ++ [toLocaleString (created log)])%list.

End AuditTrailSpec.

(** * Properties *)

(** ** Numbers *)

Lemma of_Z_7 : Number.of_Z 7 = S754_finite false 7881299347898368 (-50).
Proof. reflexivity. Qed.

Lemma of_Z_5 : Number.of_Z 5 = S754_finite false 5629499534213120 (-50).
Proof. reflexivity. Qed.

(** Comparison is antisymmetric, [NaN] included (both sides are [None]). *)
Lemma SFcompare_antisym (x y : spec_float) :
  SFcompare y x = option_map CompOpp (SFcompare x y).
Proof.
  destruct x as [sx|sx| |sx mx ex], y as [sy|sy| |sy my ey]; simpl;
    try reflexivity; try (destruct sx; reflexivity); try (destruct sy; reflexivity);
    try (destruct sx, sy; reflexivity).
  destruct sx, sy; simpl; try reflexivity;
    rewrite (Z.compare_antisym ex ey);
    destruct (ex ?= ey)%Z; simpl; try reflexivity;
    change (Pos.compare_cont Eq my mx) with (Pos.compare_cont (CompOpp Eq) my mx);
    rewrite <- (Pos.compare_cont_antisym mx my Eq);
    destruct (Pos.compare_cont Eq mx my); reflexivity.
Qed.

(** Two numbers compare unless one of them is [NaN]. *)
Lemma SFcompare_defined (x y : spec_float) :
  Number.isNaN x = false → Number.isNaN y = false → is_Some (SFcompare x y).
Proof.
  destruct x as [sx|sx| |sx mx ex], y as [sy|sy| |sy my ey]; simpl;
    intros; try discriminate; eauto.
Qed.

(** Away from [NaN], [x < y] is the negation of [x >= y]. *)
Lemma lt_negb_ge (x y : number) :
  Number.isNaN x = false → Number.isNaN y = false →
  Number.lt x y = negb (Number.ge x y).
Proof.
  intros Hx Hy. unfold Number.lt, Number.ge, SFltb, SFleb.
  rewrite (SFcompare_antisym x y).
  destruct (SFcompare_defined x y Hx Hy) as [c ->]. destruct c; reflexivity.
Qed.

Lemma NaN_ge (y : number) : Number.ge Number.NaN y = false.
Proof. unfold Number.ge, SFleb. destruct y; reflexivity. Qed.

Lemma NaN_lt (y : number) : Number.lt Number.NaN y = false.
Proof. reflexivity. Qed.

(** ** Score badge and score colour *)

Section ScoreClassification.
Import CandidateTable EvaluationCard.
Context `{Runtime}.

Lemma scoreBadgeVariant_scoreVariant (s : number) :
  Claims.scoreBadgeVariant s = Some (BadgeVariant_literal (scoreVariant s)).
Proof. reflexivity. Qed.

Example score_seven :
  scoreVariant (Number.of_Z 7) = Default ∧ getScoreColor (Number.of_Z 7) = "text-green-600".
Proof. split; reflexivity. Qed.

Example score_six_and_a_half :
  scoreVariant (Number.of_scaled 13 (-1)) = Secondary
  ∧ getScoreColor (Number.of_scaled 13 (-1)) = "text-yellow-600".
Proof. split; reflexivity. Qed.

Example score_five :
  scoreVariant (Number.of_Z 5) = Secondary ∧ getScoreColor (Number.of_Z 5) = "text-yellow-600".
Proof. split; reflexivity. Qed.

Example score_four :
  scoreVariant (Number.of_Z 4) = Destructive ∧ getScoreColor (Number.of_Z 4) = "text-red-600".
Proof. split; reflexivity. Qed.

(** A score of at least 7 is at least 5. *)
Lemma ge_7_ge_5 (s : number) :
  Number.ge s (Number.of_Z 7) = true → Number.ge s (Number.of_Z 5) = true.
Proof.
  rewrite of_Z_7, of_Z_5. unfold Number.ge, SFleb.
  destruct s as [sg|sg| |sg m e]; try destruct sg;
    cbv beta iota delta [SFcompare]; try (intros Hge; exact Hge).
  destruct (-50 ?= e)%Z; try (intros Hge; exact Hge).
  fold (Pos.compare 7881299347898368 m). fold (Pos.compare 5629499534213120 m).
  destruct (Pos.compare_spec 7881299347898368 m) as [E7|L7|G7];
    destruct (Pos.compare_spec 5629499534213120 m) as [E5|L5|G5];
    intros H7; try reflexivity; try discriminate H7.
  - subst m. vm_compute in G5. discriminate G5.
  - pose proof (Pos.lt_trans _ _ _ L7 G5) as F. vm_compute in F. discriminate F.
Qed.

Lemma scoreVariant_cases (s : number) :
  scoreVariant s =
    if Number.ge s (Number.of_Z 7) then Default
    else if Number.lt s (Number.of_Z 5) then Destructive else Secondary.
Proof. reflexivity. Qed.

Lemma getScoreColor_cases (s : number) :
  getScoreColor s =
    if Number.ge s (Number.of_Z 7) then "text-green-600"
    else if Number.ge s (Number.of_Z 5) then "text-yellow-600" else "text-red-600".
Proof. reflexivity. Qed.

(** C9, as stated, fails at [NaN]: every comparison with [NaN] is false, so
    the badge stays at its initial 'secondary' while the colour falls through
    to red. *)
Lemma score_classification_differs_at_NaN :
  Claims.scoreBadgeVariant (H:=Sample.runtime) Number.NaN = Some "secondary"
  ∧ getScoreColor Number.NaN = "text-red-600"
  ∧ ¬ Claims.sameClassification (H:=Sample.runtime) Number.NaN
  ∧ ¬ (∀ s : number,
         Claims.sameClassification (H:=Sample.runtime) s ∧ Claims.thresholds s).
Proof.
  assert (Hno : ¬ Claims.sameClassification (H:=Sample.runtime) Number.NaN).
  { intros (_ & [_ Hred] & _). specialize (Hred eq_refl). discriminate Hred. }
  repeat split; try reflexivity; [exact Hno|].
  intros Hall. exact (Hno (proj1 (Hall Number.NaN))).
Qed.

(** C9 (amended): for every score other than [NaN] the badge variant and the
    score colour are the same three-way classification: 'default' exactly
    with green (s >= 7), 'destructive' exactly with red (s < 5) and
    'secondary' exactly with yellow (5 <= s < 7). *)
Theorem score_classification_agrees (s : number) :
  Number.isNaN s = false →
  Claims.sameClassification s ∧ Claims.thresholds s.
Proof.
  intros Hs. unfold Claims.sameClassification, Claims.thresholds.
  rewrite scoreBadgeVariant_scoreVariant, scoreVariant_cases, getScoreColor_cases.
  rewrite !(lt_negb_ge s) by (exact Hs || reflexivity).
  pose proof (ge_7_ge_5 s) as H75.
  destruct (Number.ge s (Number.of_Z 7)) eqn:H7;
    destruct (Number.ge s (Number.of_Z 5)) eqn:H5; simpl;
    try (specialize (H75 eq_refl); discriminate H75);
    repeat split; intros; try discriminate; try reflexivity;
    try (destruct_and?; discriminate).
Qed.

End ScoreClassification.

Lemma score_classification_agrees_witness :
  Number.isNaN (Number.of_Z 6) = false
  ∧ Claims.sameClassification (H:=Sample.runtime) (Number.of_Z 6)
  ∧ Claims.thresholds (Number.of_Z 6).
Proof.
  split; [reflexivity|].
  apply (score_classification_agrees (H:=Sample.runtime) (Number.of_Z 6)). reflexivity.
Defined.

(** ** The reprocess action of the candidate table *)

Section Reprocess.
Import CandidateTable.
Context `{Runtime} {E : Type}.

Lemma Status_literal_failed (s : Status) :
  String.eqb (Status_literal s) "failed" = true ↔ s = Failed.
Proof. destruct s; simpl; split; intros; congruence. Qed.

Lemma last_row (props : CandidateTableProps E) (c : Candidate) :
  last (Jsx.children_of (row props c)) = Some (actionsCell props c).
Proof. reflexivity. Qed.

(** The actions of a row, read back from its rendering. *)
Lemma rowActions_row (props : CandidateTableProps E) (c : Candidate) :
  rowActions (row props c) =
    Button "ghost" "icon" (onViewDetails props (id c)) [Jsx.icon "Eye" "h-4 w-4"]
    :: match onReprocess props with
       | Some reprocess =>
           if String.eqb (Status_literal (status c)) "failed"
           then [Button "ghost" "icon" (reprocess (id c))
                        [Jsx.icon "RefreshCw" "h-4 w-4"]]
           else []
       | None => []
       end.
Proof.
  unfold rowActions. rewrite last_row. unfold actionsCell, TableCell.
  cbn [Jsx.children_of].
  destruct (onReprocess props) as [reprocess|];
    [destruct (String.eqb (Status_literal (status c)) "failed")|]; reflexivity.
Qed.

(** Rows are rendered one per candidate, in order. *)
Lemma renderedRows_table (props : CandidateTableProps E) :
  renderedRows (CandidateTable props) =
    if Nat.eqb (length (candidates props)) 0 then [emptyRow]
    else map (row props) (candidates props).
Proof. reflexivity. Qed.

(** Without a handler no row offers the action. *)
Lemma no_handler_no_reprocess (props : CandidateTableProps E) (c : Candidate) :
  onReprocess props = None → offersReprocess (row props c) = false.
Proof.
  intros Hnone. unfold offersReprocess. rewrite rowActions_row, Hnone. reflexivity.
Qed.

(** The placeholder row of an empty table offers nothing. *)
Lemma emptyRow_no_reprocess : offersReprocess (emptyRow (E:=E)) = false.
Proof. reflexivity. Qed.

(** C1: with an [onReprocess] handler supplied, the row rendered for a
    candidate offers the reprocess action if and only if the candidate's
    status is 'failed'; the action then calls the handler with that
    candidate's id, and for every other status the row's only action is the
    view button. *)
Theorem reprocess_offered_iff_failed
    (props : CandidateTableProps E) (reprocess : Z → E) (i : nat) (c : Candidate) :
  onReprocess props = Some reprocess →
  candidates props !! i = Some c →
  ∃ r, renderedRows (CandidateTable props) !! i = Some r
       ∧ r = row props c
       ∧ (offersReprocess r = true ↔ status c = Failed)
       ∧ (status c = Failed →
            rowActions r =
              [Button "ghost" "icon" (onViewDetails props (id c))
                      [Jsx.icon "Eye" "h-4 w-4"];
               Button "ghost" "icon" (reprocess (id c))
                      [Jsx.icon "RefreshCw" "h-4 w-4"]])
       ∧ (status c ≠ Failed →
            rowActions r =
              [Button "ghost" "icon" (onViewDetails props (id c))
                      [Jsx.icon "Eye" "h-4 w-4"]]).
Proof.
  intros Hre Hc. exists (row props c).
  assert (Hrows : renderedRows (CandidateTable props) !! i = Some (row props c)).
  { rewrite renderedRows_table.
    destruct (candidates props) as [|c0 cs] eqn:Hcs; [discriminate Hc|].
    cbn [length Nat.eqb]. rewrite list_lookup_fmap, Hc. reflexivity. }
  split; [exact Hrows|]. split; [reflexivity|].
  pose proof (Status_literal_failed (status c)) as Hlit.
  unfold offersReprocess. rewrite rowActions_row, Hre.
  destruct (String.eqb (Status_literal (status c)) "failed") eqn:Hf.
  - assert (Hs : status c = Failed) by (apply Hlit; reflexivity).
    repeat split; intros; try reflexivity; try exact Hs; congruence.
  - assert (Hs : status c ≠ Failed).
    { intros Hs. apply Hlit in Hs. congruence. }
    repeat split; intros; try reflexivity; try discriminate; congruence.
Qed.

End Reprocess.

Lemma reprocess_offered_iff_failed_witness :
  let props := Sample.tableProps
                 [Sample.tableCandidate 7 CandidateTable.Completed;
                  Sample.tableCandidate 8 CandidateTable.Failed] in
  CandidateTable.onReprocess props = Some Sample.Reprocess
  ∧ CandidateTable.candidates props !! 1 = Some (Sample.tableCandidate 8 CandidateTable.Failed)
  ∧ ∃ r, CandidateTable.renderedRows
           (CandidateTable.CandidateTable (H:=Sample.runtime) props) !! 1 = Some r
         ∧ CandidateTable.offersReprocess r = true.
Proof.
  intros props. split; [reflexivity|]. split; [reflexivity|].
  destruct (reprocess_offered_iff_failed (H:=Sample.runtime) props Sample.Reprocess 1
              (Sample.tableCandidate 8 CandidateTable.Failed) eq_refl eq_refl)
    as (r & Hr & _ & Hiff & _).
  exists r. split; [exact Hr | apply Hiff; reflexivity].
Defined.

(** ** The recommendation badge of the evaluation card *)

Section RecommendationBadge.
Import EvaluationCard.
Context `{Runtime} {E : Type}.

Lemma Recommendation_literal_interview (r : Recommendation) :
  String.eqb (Recommendation_literal r) "interview" = true ↔ r = Interview.
Proof. destruct r; simpl; split; intros; congruence. Qed.

(** On any string the badge is chosen by equality with 'interview'. *)
Lemma recommendationBadge_texts (recommendation : string) :
  Jsx.texts_of (recommendationBadge (E:=E) recommendation) =
    if String.eqb recommendation "interview" then ["Interview"] else ["Decline"].
Proof.
  unfold recommendationBadge.
  destruct (String.eqb recommendation "interview"); reflexivity.
Qed.

Lemma renderedBadges_card (props : EvaluationCardProps) :
  renderedBadges (overallAssessment (E:=E) props) =
    [recommendationBadge (Recommendation_literal (recommendation (evaluation props)))].
Proof.
  unfold overallAssessment, renderedBadges. cbn [Jsx.children_of Jsx.el].
  unfold recommendationBadge.
  destruct (recommendation (evaluation props)); reflexivity.
Qed.

Lemma api_recommendation_literals (s : string) :
  is_Some (Api.Recommendation_of_string s) ↔ s = "interview" ∨ s = "decline".
Proof.
  unfold Api.Recommendation_of_string.
  destruct (String.eqb_spec s "interview") as [->|Hi]; [split; eauto|].
  destruct (String.eqb_spec s "decline") as [->|Hd]; [split; eauto|].
  split; [intros [x Hx]; discriminate Hx | intros [?|?]; contradiction].
Qed.


End RecommendationBadge.

(** ** The audit trail *)

Section AuditTrail.
Import CandidateDetailSheet.
Context `{Runtime} {E : Type}.

Example replaceUnderscore_first_only :
  replaceUnderscore "ai_evaluation_retry" = "ai evaluation_retry".
Proof. reflexivity. Qed.

Lemma substring_whole (s : string) : substring 0 (String.length s) s = s.
Proof. induction s as [|c s IH]; [reflexivity|]. cbn. rewrite IH. reflexivity. Qed.

(** [replace('_', ' ')] puts a space where the first underscore was and
    leaves the rest of the string as it is. *)
Lemma replaceUnderscore_expected (s : string) :
  replaceUnderscore s = AuditTrailSpec.expectedStage s.
Proof.
  unfold AuditTrailSpec.expectedStage.
  induction s as [|c s IH]; [reflexivity|].
  cbn [replaceUnderscore String.index String.prefix].
  destruct (Ascii.eqb_spec c "_"%char) as [->|Hc].
  - destruct (ascii_dec "_" "_") as [_|Hne]; [|contradiction].
    assert (Hprefix : String.prefix "" s = true) by (destruct s; reflexivity).
    rewrite Hprefix. cbn [substring String.length String.append Nat.sub].
    rewrite ?Nat.sub_0_r, substring_whole. reflexivity.
  - destruct (ascii_dec "_" c) as [He|_]; [symmetry in He; contradiction|].
    rewrite IH. destruct (String.index 0 "_" s) as [n|]; reflexivity.
Qed.

(** An entry shows the stage, the status, the message and the error detail
    when they are non-empty, and the formatted creation time, in this
    order. *)
Lemma allTexts_renderEntry (log : Log) :
  allTexts (renderEntry (E:=E) log) = AuditTrailSpec.expectedTexts log.
Proof.
  unfold renderEntry, AuditTrailSpec.expectedTexts, Jsx.el, Badge, truthy.
  rewrite replaceUnderscore_expected.
  destruct (message log) as [m|], (error_message log) as [e|];
    try destruct (String.eqb m ""); try destruct (String.eqb e ""); reflexivity.
Qed.

Lemma renderedEntries_trail (logs : list Log) :
  renderedEntries (renderAuditTrail (E:=E) logs) = map renderEntry logs.
Proof. destruct logs; reflexivity. Qed.

Lemma fetchData_logs (i : positive) (c : Api.any) (results : option (list Log)) (st : State) :
  logs (fetchData (Some (Z.pos i)) (Resolved c results) st) = default [] results.
Proof. reflexivity. Qed.


Example expectedStage_samples :
  AuditTrailSpec.expectedStage "resume_parsing" = "resume parsing"
  ∧ AuditTrailSpec.expectedStage "ai_evaluation_retry" = "ai evaluation_retry"
  ∧ AuditTrailSpec.expectedStage "queued" = "queued"
  ∧ AuditTrailSpec.expectedStage "_" = " "
  ∧ AuditTrailSpec.expectedStage "" = "".
Proof. repeat split; reflexivity. Qed.

Example audit_trail_two_events :
  map allTexts
      (renderedEntries
         (renderAuditTrail (H:=Sample.runtime) (E:=Empty_set)
            [Sample.log 1 "resume_parsing" (Some "Parsed") None;
             Sample.log 2 "ai_evaluation" (Some "") (Some "timeout")]))
  = [["resume parsing"; "success"; "Parsed"; "2024-01-01T10:00:00Z"];
     ["ai evaluation"; "success"; "Error: "; "timeout"; "2024-01-01T10:00:00Z"]].
Proof. reflexivity. Qed.

End AuditTrail.


(** ** File selection *)

Local Open Scope nat_scope.
Local Open Scope list_scope.

Section FileSelection.
Import FileUpload.
Variable props : FileUploadProps.

Lemma filterIndexed_ext {A} (p q : A → nat → bool) (i : nat) (l : list A) :
  (∀ x j, i ≤ j → p x j = q x j) → filterIndexed p i l = filterIndexed q i l.
Proof.
  revert i. induction l as [|x l IH]; intros i Hpq; [reflexivity|].
  cbn [filterIndexed]. rewrite (Hpq x i) by lia.
  rewrite (IH (S i)) by (intros; apply Hpq; lia). reflexivity.
Qed.

Lemma filterIndexed_all {A} (p : A → nat → bool) (i : nat) (l : list A) :
  (∀ x j, i ≤ j → p x j = true) → filterIndexed p i l = l.
Proof.
  revert i. induction l as [|x l IH]; intros i Hp; [reflexivity|].
  cbn [filterIndexed]. rewrite (Hp x i) by lia.
  rewrite (IH (S i)) by (intros; apply Hp; lia). reflexivity.
Qed.

(** Filtering out index [index], counted from [i], deletes that position. *)
Lemma filterIndexed_delete {A} (i index : nat) (l : list A) :
  filterIndexed (λ _ j, negb (Nat.eqb j (i + index))) i l = delete index l.
Proof.
  revert i index. induction l as [|x l IH]; intros i index; [reflexivity|].
  cbn [filterIndexed]. destruct index as [|index].
  - rewrite Nat.add_0_r, Nat.eqb_refl. cbn [negb].
    apply filterIndexed_all. intros _ j Hj.
    destruct (Nat.eqb_spec j i); [lia | reflexivity].
  - destruct (Nat.eqb_spec i (i + S index)) as [Heq|_]; [lia|]. cbn [negb].
    cbn [delete list_delete]. f_equal.
    etrans; [|exact (IH (S i) index)]. apply filterIndexed_ext.
    intros _ j _. do 2 f_equal. lia.
Qed.

Lemma removeFileAt_delete (index : nat) (selected : list File) :
  removeFileAt index selected = delete index selected.
Proof. exact (filterIndexed_delete 0 index selected). Qed.

Lemma removeFileAt_length (index : nat) (selected : list File) :
  length (removeFileAt index selected) ≤ length selected.
Proof.
  rewrite removeFileAt_delete.
  revert index. induction selected as [|x l IH]; intros [|index]; simpl; try lia.
  specialize (IH index). lia.
Qed.

(** *** Numbers that are at least 0 *)

Lemma mul_le_div (z a b : Z) : (0 < b)%Z → (z * b ≤ a ↔ z ≤ a / b)%Z.
Proof.
  intros Hb. split; intros Hz.
  - apply Z.div_le_lower_bound; [exact Hb|]. rewrite Z.mul_comm. exact Hz.
  - pose proof (Z.mul_div_le a b Hb) as Hdiv.
    apply Z.le_trans with (b * (a / b))%Z; [|exact Hdiv].
    rewrite (Z.mul_comm z b). apply Z.mul_le_mono_nonneg_l; [|exact Hz].
    apply Z.lt_le_incl, Hb.
Qed.

(** On integer literals the order agrees with the language's [>=]. *)
Example leInteger_agrees_with_ge :
  Number.leInteger 0 (Number.of_Z 10) = Number.ge (Number.of_Z 10) (Number.of_Z 0)
  ∧ Number.leInteger 11 (Number.of_Z 10) = Number.ge (Number.of_Z 10) (Number.of_Z 11)
  ∧ Number.leInteger 2 (Number.of_scaled 5 (-1))
    = Number.ge (Number.of_scaled 5 (-1)) (Number.of_Z 2)
  ∧ Number.leInteger 3 (Number.of_scaled 5 (-1))
    = Number.ge (Number.of_scaled 5 (-1)) (Number.of_Z 3)
  ∧ Number.leInteger 0 (Number.of_Z (-1)) = Number.ge (Number.of_Z (-1)) (Number.of_Z 0)
  ∧ Number.leInteger 0 Number.NaN = Number.ge Number.NaN (Number.of_Z 0).
Proof. vm_compute. repeat split. Qed.

(** A number that is at least 0 is either above every integer, or it has an
    integer part, which is where [slice] stops. *)
Lemma nonneg_integerPart (x : number) :
  Number.leInteger 0 x = true →
  (JsArray.toIntegerOrInfinity x = JsArray.PosInfinity ∧ Number.integerPart x None)
  ∨ ∃ k : nat, JsArray.toIntegerOrInfinity x = JsArray.Finite (Z.of_nat k)
               ∧ Number.integerPart x (Some k).
Proof.
  destruct x as [sg|sg| |sg m e]; cbn [Number.leInteger]; intros Hx.
  - right. exists 0. split; [reflexivity|]. intros z. cbn [Number.leInteger].
    apply Z.leb_le.
  - destruct sg; [discriminate Hx|]. left. split; [reflexivity|].
    intros z. split; reflexivity.
  - discriminate Hx.
  - pose proof (Z.pow_pos_nonneg 2 e eq_refl) as Hpow.
    pose proof (Z.pow_pos_nonneg 2 (- e) eq_refl) as Hpow'.
    destruct sg.
    { exfalso. destruct (0 <=? e)%Z eqn:He.
      - apply Z.leb_le in He, Hx. specialize (Hpow He).
        pose proof (Pos2Z.neg_is_neg m). nia.
      - apply Z.leb_le in Hx. pose proof (Pos2Z.neg_is_neg m). lia. }
    right. cbn [JsArray.toIntegerOrInfinity]. destruct (0 <=? e)%Z eqn:He.
    + apply Z.leb_le in He. specialize (Hpow He).
      exists (Z.to_nat (Z.pos m * 2 ^ e)).
      assert (Hk : Z.of_nat (Z.to_nat (Z.pos m * 2 ^ e)) = (Z.pos m * 2 ^ e)%Z).
      { apply Z2Nat.id. pose proof (Pos2Z.is_pos m). nia. }
      split.
      * rewrite Z.shiftl_mul_pow2 by exact He. rewrite Hk. reflexivity.
      * intros z. cbn [Number.leInteger]. apply Z.leb_le in He. rewrite He.
        rewrite Hk. apply Z.leb_le.
    + apply Z.leb_gt in He. specialize (Hpow' ltac:(lia)).
      exists (Z.to_nat (Z.pos m / 2 ^ (- e))).
      assert (Hk : Z.of_nat (Z.to_nat (Z.pos m / 2 ^ (- e))) = (Z.pos m / 2 ^ (- e))%Z).
      { apply Z2Nat.id. apply Z.div_pos; [apply Pos2Z.is_nonneg | exact Hpow']. }
      split.
      * rewrite Z.shiftr_div_pow2 by lia. rewrite Hk. reflexivity.
      * intros z. cbn [Number.leInteger].
        assert (He' : (0 <=? e)%Z = false) by (apply Z.leb_gt; exact He).
        rewrite He', Hk, Z.leb_le. apply mul_le_div. exact Hpow'.
Qed.

Lemma slice0_finite {A} (l : list A) (x : number) (k : nat) :
  JsArray.toIntegerOrInfinity x = JsArray.Finite (Z.of_nat k) →
  JsArray.slice0 l x = take k l.
Proof.
  intros Hx. unfold JsArray.slice0. rewrite Hx. cbn [JsArray.sliceFinal].
  destruct (Z.ltb_spec (Z.of_nat k) 0) as [Hneg|_]; [lia|].
  destruct (Nat.le_gt_cases k (length l)) as [Hle|Hgt].
  - rewrite Z.min_l by lia. rewrite Nat2Z.id. reflexivity.
  - rewrite Z.min_r by lia. rewrite Nat2Z.id, !take_ge by lia. reflexivity.
Qed.

Lemma slice0_infinite {A} (l : list A) (x : number) :
  JsArray.toIntegerOrInfinity x = JsArray.PosInfinity → JsArray.slice0 l x = l.
Proof. intros Hx. unfold JsArray.slice0. rewrite Hx. apply take_ge. reflexivity. Qed.

Lemma nonneg_limit (x : number) :
  Number.leInteger 0 x = true →
  ∃ limit : option nat,
    Number.integerPart x limit
    ∧ JsArray.toIntegerOrInfinity x
      = match limit with
        | Some k => JsArray.Finite (Z.of_nat k)
        | None => JsArray.PosInfinity
        end.
Proof.
  intros Hx. destruct (nonneg_integerPart x Hx) as [[Hinf Hpart]|(k & Hk & Hpart)].
  - exists None. split; assumption.
  - exists (Some k). split; assumption.
Qed.

(** A number has at most one integer part. *)
Lemma integerPart_unique (x : number) (limit limit' : option nat) :
  Number.integerPart x limit → Number.integerPart x limit' → limit = limit'.
Proof.
  intros Hl Hl'. destruct limit as [k|], limit' as [k'|].
  - f_equal. apply Nat.le_antisymm; apply Nat2Z.inj_le.
    + apply (Hl' (Z.of_nat k)), (Hl (Z.of_nat k)). lia.
    + apply (Hl (Z.of_nat k')), (Hl' (Z.of_nat k')). lia.
  - exfalso. pose proof (proj1 (Hl (Z.of_nat k + 1)%Z)
                               (proj2 (Hl' (Z.of_nat k + 1)%Z) I)) as Hk.
    cbn in Hk. lia.
  - exfalso. pose proof (proj1 (Hl' (Z.of_nat k' + 1)%Z)
                               (proj2 (Hl (Z.of_nat k' + 1)%Z) I)) as Hk.
    cbn in Hk. lia.
  - reflexivity.
Qed.

(** What a drop keeps, for a limit that is at least 0. *)
Lemma onDropFiles_limit (limit : option nat) (selected acceptedFiles : list File) :
  JsArray.toIntegerOrInfinity (maxFilesOf props)
    = match limit with
      | Some k => JsArray.Finite (Z.of_nat k)
      | None => JsArray.PosInfinity
      end →
  onDropFiles props selected acceptedFiles
  = match limit with
    | Some k => take k (selected ++ acceptedFiles)
    | None => selected ++ acceptedFiles
    end.
Proof.
  intros Hx. unfold onDropFiles. destruct limit as [k|].
  - apply slice0_finite, Hx.
  - apply slice0_infinite, Hx.
Qed.

(** One operation keeps the selection within a finite limit. *)
Lemma step_within_limit (k : nat) (st : State) (op : Op) :
  JsArray.toIntegerOrInfinity (maxFilesOf props) = JsArray.Finite (Z.of_nat k) →
  length (selectedFiles st) ≤ k →
  length (selectedFiles (step props st op)) ≤ k.
Proof.
  intros Hx Hst. destruct op as [acceptedFiles|index]; cbn.
  - rewrite (onDropFiles_limit (Some k)) by exact Hx. rewrite length_take. lia.
  - pose proof (removeFileAt_length index (selectedFiles st)). lia.
Qed.

Lemma foldl_within_limit (k : nat) (ops : list Op) (st : State) :
  JsArray.toIntegerOrInfinity (maxFilesOf props) = JsArray.Finite (Z.of_nat k) →
  length (selectedFiles st) ≤ k →
  length (selectedFiles (foldl (step props) st ops)) ≤ k.
Proof.
  intros Hx. revert st. induction ops as [|op ops IH]; intros st Hst; [exact Hst|].
  cbn [foldl]. apply IH, step_within_limit; assumption.
Qed.

Lemma run_within_limit (k : nat) (ops : list Op) :
  JsArray.toIntegerOrInfinity (maxFilesOf props) = JsArray.Finite (Z.of_nat k) →
  length (selectedFiles (run props ops)) ≤ k.
Proof. intros Hx. apply foldl_within_limit; [exact Hx | cbn; lia]. Qed.

(** Each operation reports the new selection to [onFilesSelected]. *)
Lemma step_notifies (st : State) (op : Op) :
  notified (step props st op) = notified st ++ [selectedFiles (step props st op)].
Proof. destruct op; reflexivity. Qed.

Lemma integerPart_ten : Number.integerPart (Number.of_Z 10) (Some 10).
Proof.
  destruct (nonneg_integerPart (Number.of_Z 10) eq_refl) as [[Hinf _]|(k & Hk & Hpart)].
  - discriminate Hinf.
  - assert (Hten : JsArray.toIntegerOrInfinity (Number.of_Z 10)
                   = JsArray.Finite (Z.of_nat 10)) by (vm_compute; reflexivity).
    rewrite Hten in Hk. injection Hk as Hk. apply Nat2Z.inj in Hk.
    rewrite Hk. exact Hpart.
Qed.

(** C8 (amended): for a [maxFiles] that is at least 0 (10 when the prop is
    absent), after any sequence of [onDrop] and [removeFile] operations the
    selection has at most [maxFiles] files; [onDrop] appends the accepted
    files after the selected ones and keeps the first [limit] of them, where
    [limit] is the largest integer not above [maxFiles] (all of them when
    there is none); [removeFile i] removes exactly the file at index [i] and
    keeps every other file in its order. *)
Theorem selection_within_maxFiles
    (ops : list Op) (st : State) (acceptedFiles : list File) (index : nat) :
  Number.leInteger 0 (maxFilesOf props) = true →
  ∃ limit : option nat,
    Number.integerPart (maxFilesOf props) limit
    ∧ Number.leInteger (Z.of_nat (length (selectedFiles (run props ops))))
        (maxFilesOf props) = true
    ∧ selectedFiles (onDrop props acceptedFiles st)
      = match limit with
        | Some k => take k (selectedFiles st ++ acceptedFiles)
        | None => selectedFiles st ++ acceptedFiles
        end
    ∧ maxFilesOf {| maxFiles := None |} = Number.of_Z 10
    ∧ Number.integerPart (Number.of_Z 10) (Some 10)
    ∧ (∀ m, maxFilesOf {| maxFiles := Some m |} = m)
    ∧ selectedFiles (removeFile index st)
      = take index (selectedFiles st) ++ drop (S index) (selectedFiles st)
    ∧ (∀ j, selectedFiles (removeFile index st) !! j =
              if decide (j < index) then selectedFiles st !! j
              else selectedFiles st !! S j)
    ∧ length (selectedFiles (removeFile index st))
      = (if decide (index < length (selectedFiles st))
         then length (selectedFiles st) - 1 else length (selectedFiles st)).
Proof.
  intros Hge.
  assert (Hremove :
    selectedFiles (removeFile index st)
      = take index (selectedFiles st) ++ drop (S index) (selectedFiles st)
    ∧ (∀ j, selectedFiles (removeFile index st) !! j =
              if decide (j < index) then selectedFiles st !! j
              else selectedFiles st !! S j)
    ∧ length (selectedFiles (removeFile index st))
      = (if decide (index < length (selectedFiles st))
         then length (selectedFiles st) - 1 else length (selectedFiles st))).
  { cbn [removeFile setAndNotify selectedFiles]. rewrite removeFileAt_delete.
    split; [apply delete_take_drop|]. split.
    - intros j. rewrite list_lookup_delete. destruct (decide (j < index)); reflexivity.
    - destruct (decide (index < length (selectedFiles st))) as [Hlt|Hnlt].
      + rewrite length_delete; [reflexivity|]. apply lookup_lt_is_Some_2, Hlt.
      + rewrite delete_take_drop, length_app, length_take, length_drop. lia. }
  destruct (nonneg_integerPart _ Hge) as [[Hinf Hpart]|(k & Hk & Hpart)].
  - exists None. split; [exact Hpart|]. split; [apply Hpart; exact I|].
    split; [exact (onDropFiles_limit None _ _ Hinf)|].
    split; [reflexivity|]. split; [exact integerPart_ten|]. split; [reflexivity|].
    exact Hremove.
  - exists (Some k). split; [exact Hpart|].
    split; [apply Hpart, inj_le, run_within_limit, Hk|].
    split; [exact (onDropFiles_limit (Some k) _ _ Hk)|].
    split; [reflexivity|]. split; [exact integerPart_ten|]. split; [reflexivity|].
    exact Hremove.
Qed.

Example eleven_files_keep_ten :
  let files := map Sample.file ["a"; "b"; "c"; "d"; "e"; "f"; "g"; "h"; "i"; "j"; "k"] in
  selectedFiles (run {| maxFiles := None |} [OnDrop (take 4 files); OnDrop (drop 4 files)])
    = take 10 files.
Proof. vm_compute. reflexivity. Qed.

Example remove_second_of_three :
  selectedFiles
    (run {| maxFiles := Some (Number.of_Z 3) |}
         [OnDrop (map Sample.file ["a"; "b"; "c"; "d"]); RemoveFile 1; RemoveFile 5])
    = map Sample.file ["a"; "c"].
Proof. vm_compute. reflexivity. Qed.

(** A fractional limit keeps its integer part, [NaN] keeps nothing. *)
Example fractional_and_NaN_limits :
  selectedFiles (run {| maxFiles := Some (Number.of_scaled 5 (-1)) |}
                     [OnDrop (map Sample.file ["a"; "b"; "c"])])
    = map Sample.file ["a"; "b"]
  ∧ selectedFiles (run {| maxFiles := Some Number.NaN |}
                       [OnDrop (map Sample.file ["a"; "b"; "c"])]) = []
  ∧ Number.leInteger 2 (Number.of_scaled 5 (-1)) = true
  ∧ Number.leInteger 3 (Number.of_scaled 5 (-1)) = false
  ∧ Number.leInteger 0 Number.NaN = false.
Proof. vm_compute. repeat split. Qed.

End FileSelection.

(** C8, as stated, fails for a negative [maxFiles]: [slice(0, -1)] drops
    only the last element, so of three dropped files two stay selected, which
    is more than [maxFiles]. *)
Lemma selection_exceeds_negative_maxFiles :
  let props := {| FileUpload.maxFiles := Some (Number.of_Z (-1)) |} in
  let st := FileUpload.run props [FileUpload.OnDrop (map Sample.file ["a"; "b"; "c"])] in
  FileUpload.selectedFiles st = map Sample.file ["a"; "b"]
  ∧ Number.leInteger (Z.of_nat (length (FileUpload.selectedFiles st)))
      (FileUpload.maxFilesOf props) = false
  ∧ ¬ (∀ props ops,
         Number.leInteger
           (Z.of_nat (length (FileUpload.selectedFiles (FileUpload.run props ops))))
           (FileUpload.maxFilesOf props) = true).
Proof.
  intros props st. split; [vm_compute; reflexivity|]. split; [vm_compute; reflexivity|].
  intros Hall.
  specialize (Hall props [FileUpload.OnDrop (map Sample.file ["a"; "b"; "c"])]).
  vm_compute in Hall. discriminate Hall.
Qed.

Lemma selection_within_maxFiles_witness :
  let props := {| FileUpload.maxFiles := Some (Number.of_Z 2) |} in
  let ops := [FileUpload.OnDrop (map Sample.file ["a"; "b"; "c"])] in
  Number.leInteger 0 (FileUpload.maxFilesOf props) = true
  ∧ Number.leInteger
      (Z.of_nat (length (FileUpload.selectedFiles (FileUpload.run props ops))))
      (FileUpload.maxFilesOf props) = true.
Proof.
  intros props ops. split; [reflexivity|].
  destruct (selection_within_maxFiles props ops FileUpload.initial [] 0 eq_refl)
    as (limit & _ & Hle & _).
  exact Hle.
Defined.

(** ** Dashboard statistics *)

Section Statistics.
Import Dashboard.
Context {A : Type} `{HasStatus A}.

Lemma length_filter_cons (p : A → bool) (c : A) (l : list A) :
  length (List.filter p (c :: l)) = Nat.b2n (p c) + length (List.filter p l).
Proof. cbn [List.filter]. destruct (p c); reflexivity. Qed.

(** A row is counted once when its status is one the counters recognise,
    and not at all otherwise. *)
Lemma counted_spec (c : A) :
  counted c = if bool_decide (statusOf c ∈ countedStatuses) then 1 else 0.
Proof.
  unfold counted, isPending, isProcessing, isCompleted, isFailed, countedStatuses.
  generalize (statusOf c). intros s.
  destruct (String.eqb_spec s "pending") as [->|H1]; [reflexivity|].
  destruct (String.eqb_spec s "processing") as [->|H2]; [reflexivity|].
  destruct (String.eqb_spec s "completed") as [->|H3]; [reflexivity|].
  destruct (String.eqb_spec s "processed") as [->|H4]; [reflexivity|].
  destruct (String.eqb_spec s "failed") as [->|H5]; [reflexivity|].
  destruct (String.eqb_spec s "rejected") as [->|H6]; [reflexivity|].
  rewrite bool_decide_eq_false_2; [reflexivity|].
  rewrite !elem_of_cons, elem_of_nil. intuition congruence.
Qed.

(** The four counters add up to the number of recognised rows. *)
Lemma counters_sum (results : list A) :
  pending (newStats results) + processing (newStats results)
  + completed (newStats results) + failed (newStats results)
  = length (List.filter (λ c, bool_decide (statusOf c ∈ countedStatuses)) results).
Proof.
  cbn [newStats pending processing completed failed].
  induction results as [|c l IH]; [reflexivity|].
  rewrite !length_filter_cons, <- IH.
  pose proof (counted_spec c) as Hc. unfold counted in Hc.
  destruct (bool_decide (statusOf c ∈ countedStatuses)); cbn [Nat.b2n]; lia.
Qed.

Lemma filter_length_all (p : A → bool) (l : list A) :
  length (List.filter p l) ≤ length l
  ∧ (length (List.filter p l) = length l ↔ Forall (λ c, p c = true) l).
Proof.
  induction l as [|c l [IHle IHiff]]; [split; [reflexivity|split; constructor]|].
  rewrite length_filter_cons. cbn [length]. destruct (p c) eqn:Hp; cbn [Nat.b2n].
  - split; [lia|]. rewrite Forall_cons. split.
    + intros Hlen. split; [exact Hp|]. apply IHiff. lia.
    + intros [_ Hl]. apply IHiff in Hl. lia.
  - split; [lia|]. rewrite Forall_cons. split; [lia|]. intros [Hc _]. congruence.
Qed.

(** The counters never exceed the total, and they reach it exactly when
    every row has a recognised status. *)
Lemma counters_partition_iff (results : list A) :
  pending (newStats results) + processing (newStats results)
  + completed (newStats results) + failed (newStats results) ≤ total (newStats results)
  ∧ (Claims.partitions (newStats results)
     ↔ Forall (λ c, statusOf c ∈ countedStatuses) results).
Proof.
  unfold Claims.partitions. rewrite counters_sum. cbn [newStats total].
  destruct (filter_length_all (λ c, bool_decide (statusOf c ∈ countedStatuses)) results)
    as [Hle Hiff].
  split; [exact Hle|]. rewrite Hiff. apply Forall_iff. intros c.
  apply bool_decide_eq_true.
Qed.

End Statistics.

Section StatisticsClaims.
Import Dashboard.

Lemma table_status_counted (c : CandidateTable.Candidate) :
  statusOf c ∈ countedStatuses.
Proof.
  unfold statusOf, table_status, countedStatuses.
  destruct (CandidateTable.status c); cbn; set_solver.
Qed.

(** C10, as stated, fails on the API model: a candidate whose status is
    'error' is counted in [total] and in none of the four counters. *)
Lemma statistics_miss_error_status :
  let results := [Sample.apiCandidate Api.Error] in
  total (newStats results) = 1
  ∧ pending (newStats results) + processing (newStats results)
    + completed (newStats results) + failed (newStats results) = 0
  ∧ ¬ Claims.partitions (newStats results)
  ∧ ¬ (∀ results : list Api.Candidate, Claims.partitions (newStats results)).
Proof.
  intros results.
  assert (Hno : ¬ Claims.partitions (newStats results)) by (intros Hp; discriminate Hp).
  split; [reflexivity|]. split; [reflexivity|]. split; [exact Hno|].
  intros Hall. exact (Hno (Hall results)).
Qed.

(** C10 (amended): for every list of rows [fetchCandidates] receives,
    [total] is the length of the list, pending counts status 'pending',
    processing counts 'processing', completed counts 'completed' or
    'processed', failed counts 'failed' or 'rejected'; the four counters add
    up to at most [total], and to exactly [total] if and only if every row's
    status is one of these six values, which holds for every list of
    candidates typed as the table's rows. *)
Theorem statistics_partition
    {A : Type} `{HasStatus A} (results : list A) (rows : list CandidateTable.Candidate)
    (st : State A) :
  stats (fetchCandidates (Json (Some results)) st) = newStats results
  ∧ total (newStats results) = length results
  ∧ pending (newStats results)
      = length (List.filter (λ c, String.eqb (statusOf c) "pending") results)
  ∧ processing (newStats results)
      = length (List.filter (λ c, String.eqb (statusOf c) "processing") results)
  ∧ completed (newStats results)
      = length (List.filter (λ c, String.eqb (statusOf c) "completed"
                                   || String.eqb (statusOf c) "processed") results)
  ∧ failed (newStats results)
      = length (List.filter (λ c, String.eqb (statusOf c) "failed"
                                   || String.eqb (statusOf c) "rejected") results)
  ∧ pending (newStats results) + processing (newStats results)
    + completed (newStats results) + failed (newStats results) ≤ total (newStats results)
  ∧ (Claims.partitions (newStats results)
     ↔ Forall (λ c, statusOf c ∈ countedStatuses) results)
  ∧ Claims.partitions (newStats rows).
Proof.
  do 6 (split; [reflexivity|]).
  destruct (counters_partition_iff results) as [Hle Hiff].
  split; [exact Hle|]. split; [exact Hiff|].
  apply counters_partition_iff, Forall_forall. intros c _. apply table_status_counted.
Qed.

Example statistics_of_five_rows :
  newStats ["pending"; "processed"; "failed"; "rejected"; "completed"]
  = {| total := 5; pending := 1; processing := 0; completed := 2; failed := 2 |}.
Proof. reflexivity. Qed.

End StatisticsClaims.

(** ** The data model *)

Section DataModel.
Import Api.

Example spec_states_recognised :
  Spec.isLifecycleState "completed" = true
  ∧ Spec.isLifecycleState "failed" = true
  ∧ Spec.isLifecycleState "pending" = false
  ∧ Spec.isLifecycleState "processing" = false
  ∧ Spec.isLifecycleState "error" = false
  ∧ Spec.isLifecycleState "processed" = false
  ∧ Spec.isLifecycleState "rejected" = false.
Proof. repeat split; reflexivity. Qed.

(** C2, as stated, fails: a candidate whose status is 'pending' is a
    Candidate value, and 'pending' is none of the nine lifecycle states. *)
Lemma candidate_status_outside_spec_states :
  let c := Sample.apiCandidate Pending in
  CandidateStatus_literal (status c) = "pending"
  ∧ Spec.isLifecycleState (CandidateStatus_literal (status c)) = false
  ∧ ¬ (∀ c : Candidate, Spec.isLifecycleState (CandidateStatus_literal (status c)) = true).
Proof.
  intros c. split; [reflexivity|]. split; [reflexivity|].
  intros Hall. specialize (Hall c). discriminate Hall.
Qed.

(** C2 (amended): a candidate's status is drawn from the status set of the
    code, not from the lifecycle states of the specification: in the API
    model it is one of 'pending', 'processing', 'completed' or 'error', in
    the table's row model one of 'pending', 'processing', 'completed',
    'failed', 'processed' or 'rejected', and no other value; of these only
    'completed' and 'failed' name a lifecycle state. *)
Theorem candidate_status_set (c : Candidate) (r : CandidateTable.Candidate) :
  CandidateStatus_literal (status c) ∈ ["pending"; "processing"; "completed"; "error"]
  ∧ (Spec.isLifecycleState (CandidateStatus_literal (status c)) = true
     ↔ status c = Completed)
  ∧ CandidateTable.Status_literal (CandidateTable.status r)
      ∈ ["pending"; "processing"; "completed"; "failed"; "processed"; "rejected"]
  ∧ (Spec.isLifecycleState (CandidateTable.Status_literal (CandidateTable.status r)) = true
     ↔ CandidateTable.status r = CandidateTable.Completed
       ∨ CandidateTable.status r = CandidateTable.Failed).
Proof.
  split; [destruct (status c); cbn; set_solver|].
  split; [destruct (status c); vm_compute; split; intros; congruence|].
  split; [destruct (CandidateTable.status r); cbn; set_solver|].
  destruct (CandidateTable.status r); vm_compute; split; intros Hs;
    try discriminate Hs; auto; destruct Hs as [Hs|Hs]; discriminate Hs.
Qed.

Lemma evaluationsOf_recordsFor (candidateId : Z) (n : nat) :
  EvaluationStore.evaluationsOf candidateId (EvaluationStore.recordsFor candidateId n)
  = EvaluationStore.recordsFor candidateId n.
Proof.
  unfold EvaluationStore.evaluationsOf, EvaluationStore.recordsFor.
  induction (seq 0 n) as [|k ks IH]; [reflexivity|].
  cbn [map List.filter EvaluationStore.evaluationFor e_candidate].
  rewrite Z.eqb_refl. f_equal. exact IH.
Qed.

Lemma recordsFor_ids (candidateId : Z) (n : nat) :
  map e_id (EvaluationStore.recordsFor candidateId n) = map Z.of_nat (seq 0 n).
Proof. unfold EvaluationStore.recordsFor. rewrite map_map. reflexivity. Qed.

(** C3, as stated, fails: next to the evaluation a candidate carries, a
    second, different Evaluation value can name the same candidate in its
    [candidate] field. *)
Lemma second_evaluation_names_same_candidate :
  let e1 := EvaluationStore.evaluationFor 1 1 in
  let e2 := EvaluationStore.evaluationFor 2 1 in
  let c := EvaluationStore.candidateWith e1 in
  evaluation c = Some e1
  ∧ e_candidate e1 = id c
  ∧ e_candidate e2 = id c
  ∧ e1 ≠ e2
  ∧ EvaluationStore.evaluationsOf (id c) [e1; e2] = [e1; e2]
  ∧ ¬ (∀ (c : Candidate) (store : list Evaluation),
         NoDup store → length (EvaluationStore.evaluationsOf (id c) store) ≤ 1).
Proof.
  intros e1 e2 c.
  assert (Hne : e1 ≠ e2) by (intros Heq; discriminate Heq).
  split; [reflexivity|]. split; [reflexivity|]. split; [reflexivity|].
  split; [exact Hne|]. split; [reflexivity|].
  intros Hall. specialize (Hall c [e1; e2]).
  assert (Hnodup : NoDup [e1; e2]).
  { constructor; [|constructor; [apply not_elem_of_nil | constructor]].
    rewrite elem_of_cons. intros [Heq|Hin]; [exact (Hne Heq)|].
    exact (not_elem_of_nil _ Hin). }
  specialize (Hall Hnodup). cbn in Hall. lia.
Qed.

(** C3 (amended): a Candidate value carries no evaluation or exactly one in
    its optional [evaluation] field, also after any operation on candidate
    values; the reference back, the [candidate] field of an Evaluation, is a
    plain number, and the model sets no bound on the Evaluations that name
    the same candidate: for every candidate id and every [n] there are [n]
    Evaluation values with pairwise different ids that all name it. *)
Theorem at_most_one_evaluation
    (c : Candidate) (op : Candidate → Candidate) (candidateId : Z) (n : nat) :
  ((evaluation c = None ∧ evaluations c = [])
   ∨ (∃ e, evaluation c = Some e ∧ evaluations c = [e]))
  ∧ length (evaluations c) ≤ 1
  ∧ length (evaluations (op c)) ≤ 1
  ∧ Forall (λ e, e_candidate e = candidateId) (EvaluationStore.recordsFor candidateId n)
  ∧ NoDup (map e_id (EvaluationStore.recordsFor candidateId n))
  ∧ length (EvaluationStore.evaluationsOf candidateId
              (EvaluationStore.recordsFor candidateId n)) = n.
Proof.
  assert (Hle : ∀ c', length (evaluations c') ≤ 1).
  { intros c'. unfold evaluations. destruct (evaluation c'); cbn; lia. }
  split.
  { unfold evaluations.
    destruct (evaluation c) as [e|]; [right; exists e|left]; split; reflexivity. }
  split; [apply Hle|]. split; [apply Hle|]. split.
  { unfold EvaluationStore.recordsFor.
    induction (seq 0 n) as [|k ks IH]; constructor; [reflexivity | exact IH]. }
  split.
  { rewrite recordsFor_ids. apply (NoDup_fmap_2 Z.of_nat), NoDup_seq. }
  rewrite evaluationsOf_recordsFor. unfold EvaluationStore.recordsFor.
  rewrite length_map, length_seq. reflexivity.
Qed.

(** C4, as stated, fails: 'pending' is a decision of the model and not one
    of interview, decline, comment-only; 'comment-only' is no decision of
    the model. *)
Lemma decision_outside_spec_set :
  let fb := Sample.feedback DecisionPending in
  Decision_literal (decision fb) = "pending"
  ∧ (Decision_literal (decision fb) ∉ Spec.decisions)
  ∧ Decision_of_string "comment-only" = None
  ∧ ¬ (∀ fb : StakeholderFeedback, Decision_literal (decision fb) ∈ Spec.decisions).
Proof.
  intros fb.
  assert (Hno : Decision_literal (decision fb) ∉ Spec.decisions).
  { cbn. unfold Spec.decisions. rewrite !not_elem_of_cons. repeat split; try discriminate.
    apply not_elem_of_nil. }
  split; [reflexivity|]. split; [exact Hno|]. split; [reflexivity|].
  intros Hall. exact (Hno (Hall fb)).
Qed.

(** C4 (amended): every StakeholderFeedback record's decision is exactly one
    of the three values interview, decline or pending, and no other value is
    representable. *)
Theorem decision_set (fb : StakeholderFeedback) (s : string) :
  Decision_literal (decision fb) ∈ ["interview"; "decline"; "pending"]
  ∧ Decision_of_string (Decision_literal (decision fb)) = Some (decision fb)
  ∧ (is_Some (Decision_of_string s) ↔ s ∈ ["interview"; "decline"; "pending"])
  ∧ (∀ d, Decision_of_string s = Some d ↔ Decision_literal d = s).
Proof.
  split; [destruct (decision fb); cbn; set_solver|].
  split; [destruct (decision fb); reflexivity|].
  unfold Decision_of_string.
  destruct (String.eqb_spec s "interview") as [->|Hi].
  { split; [split; [set_solver|eauto]|].
    intros []; cbn; split; intros; congruence. }
  destruct (String.eqb_spec s "decline") as [->|Hd].
  { split; [split; [set_solver|eauto]|].
    intros []; cbn; split; intros; congruence. }
  destruct (String.eqb_spec s "pending") as [->|Hp].
  { split; [split; [set_solver|eauto]|].
    intros []; cbn; split; intros; congruence. }
  split.
  - split; [intros [d Hd']; discriminate Hd'|].
    rewrite !elem_of_cons, elem_of_nil. intuition congruence.
  - intros []; cbn; split; intros; congruence.
Qed.

End DataModel.

(** * Further properties of the components *)

(** ** File selection: callbacks, provenance, capacity *)

Section FileSelectionMore.
Import FileUpload FileUploadView.
Variable props : FileUploadProps.

Lemma capacityTable_holds (n : nat) :
  n ≤ 100 →
  JsArray.toIntegerOrInfinity (Number.of_Z (Z.of_nat n)) = JsArray.Finite (Z.of_nat n)
  ∧ ∀ len, len ≤ n →
      SFsub Number.prec Number.emax (Number.of_Z (Z.of_nat n)) (Number.of_Z (Z.of_nat len))
        = Number.of_Z (Z.of_nat n - Z.of_nat len)
      ∧ Number.ge (Number.of_Z (Z.of_nat n - Z.of_nat len)) (Number.of_Z 0) = true
      ∧ (Number.ge (Number.of_Z (Z.of_nat len)) (Number.of_Z (Z.of_nat n)) = true
         ↔ Number.of_Z (Z.of_nat n - Z.of_nat len) = Number.of_Z 0)
      ∧ (Number.ge (Number.of_Z (Z.of_nat len)) (Number.of_Z (Z.of_nat n)) = true
         ↔ len = n).
Proof.
  intros Hn.
  assert (Htable : FileUploadCapacity.capacityTable 100 = true) by (vm_compute; reflexivity).
  unfold FileUploadCapacity.capacityTable in Htable.
  rewrite forallb_forall in Htable.
  specialize (Htable n ltac:(apply in_seq; lia)).
  apply andb_prop in Htable as [Hint Hrows]. apply bool_decide_eq_true in Hint.
  split; [exact Hint|]. intros len Hlen.
  rewrite forallb_forall in Hrows. specialize (Hrows len ltac:(apply in_seq; lia)).
  unfold FileUploadCapacity.capacityRow in Hrows. cbv zeta in Hrows.
  apply andb_prop in Hrows as [Hrows Hfull]. apply andb_prop in Hrows as [Hrows Hzero].
  apply andb_prop in Hrows as [Hsub Hpos].
  apply bool_decide_eq_true in Hsub, Hzero, Hfull.
  rewrite Hsub in Hpos, Hzero. split; [exact Hsub|]. split; [exact Hpos|].
  split.
  - rewrite Hzero. apply bool_decide_eq_true.
  - rewrite Hfull. apply bool_decide_eq_true.
Qed.

Lemma run_snoc (ops : list Op) (op : Op) :
  run props (ops ++ [op]) = step props (run props ops) op.
Proof. unfold run. rewrite foldl_app. reflexivity. Qed.

Lemma droppedFiles_snoc (ops : list Op) (op : Op) :
  droppedFiles (ops ++ [op]) =
    droppedFiles ops ++ match op with OnDrop fs => fs | RemoveFile _ => [] end.
Proof.
  unfold droppedFiles. rewrite omap_app, concat_app.
  destruct op; cbn; rewrite ?app_nil_r; reflexivity.
Qed.

Lemma last_notified_run (ops : list Op) :
  default [] (last (notified (run props ops))) = selectedFiles (run props ops).
Proof.
  destruct ops as [|op0 ops0] using rev_ind; [reflexivity|].
  rewrite run_snoc, step_notifies, last_snoc. reflexivity.
Qed.

(** X1: [onFilesSelected] is called exactly once per operation, the k-th
    call carries the selection as it is after the k-th operation, and so the
    last call carries the current selection. *)
Theorem parent_sees_every_selection (ops : list Op) :
  length (notified (run props ops)) = length ops
  ∧ notified (run props ops)
      = (λ k, selectedFiles (run props (take (S k) ops))) <$> seq 0 (length ops)
  ∧ last (notified (run props ops))
      = match ops with [] => None | _ => Some (selectedFiles (run props ops)) end.
Proof.
  assert (Htrace : notified (run props ops)
            = (λ k, selectedFiles (run props (take (S k) ops))) <$> seq 0 (length ops)).
  { induction ops as [|op ops IH] using rev_ind; [reflexivity|].
    rewrite run_snoc, step_notifies, <- run_snoc, IH.
    rewrite length_app, seq_app, fmap_app. cbn [length seq fmap list_fmap].
    f_equal.
    - apply list_fmap_ext. intros i k Hk.
      apply lookup_seq in Hk as [-> Hlt]. cbn. rewrite take_app_le by lia. reflexivity.
    - cbn [Nat.add].
      rewrite (take_ge (ops ++ [op])) by (rewrite length_app; cbn; lia). reflexivity. }
  split; [rewrite Htrace, length_fmap, length_seq; reflexivity|].
  split; [exact Htrace|].
  destruct ops as [|op0 ops0] using rev_ind; [reflexivity|].
  rewrite run_snoc, step_notifies, last_snoc.
  destruct (ops0 ++ [op0]) eqn:Hnil; [destruct ops0; discriminate Hnil|reflexivity].
Qed.

(** X2: no file is invented or reordered: the selection is always a
    sublist of the files dropped so far, in the order they were dropped. *)
Theorem selection_sublist_of_drops (ops : list Op) :
  selectedFiles (run props ops) `sublist_of` droppedFiles ops.
Proof.
  induction ops as [|op ops IH] using rev_ind; [constructor|].
  rewrite run_snoc, droppedFiles_snoc. destruct op as [acceptedFiles|index]; cbn.
  - unfold onDropFiles, JsArray.slice0. etrans; [apply sublist_take|].
    apply sublist_app; [exact IH | reflexivity].
  - rewrite removeFileAt_delete, app_nil_r. etrans; [apply sublist_delete | exact IH].
Qed.

(** X3: for a [maxFiles] that is at least 0, a drop never displaces a
    selected file: it appends as many of the accepted files as there is room
    for up to the integer part [limit] of [maxFiles] (all of them when
    [maxFiles] is above every integer), in order, and nothing else. *)
Theorem drop_appends_what_fits (ops : list Op) (acceptedFiles : list File) :
  Number.leInteger 0 (maxFilesOf props) = true →
  ∃ limit : option nat,
    Number.integerPart (maxFilesOf props) limit
    ∧ selectedFiles (onDrop props acceptedFiles (run props ops))
      = selectedFiles (run props ops)
        ++ match limit with
           | Some k => take (k - length (selectedFiles (run props ops))) acceptedFiles
           | None => acceptedFiles
           end
    ∧ length (selectedFiles (onDrop props acceptedFiles (run props ops)))
      = match limit with
        | Some k => min k (length (selectedFiles (run props ops)) + length acceptedFiles)
        | None => length (selectedFiles (run props ops)) + length acceptedFiles
        end.
Proof.
  intros Hge. destruct (nonneg_limit _ Hge) as (limit & Hpart & Hlimit).
  exists limit. split; [exact Hpart|].
  cbn [onDrop setAndNotify selectedFiles].
  rewrite (onDropFiles_limit props limit _ _ Hlimit).
  destruct limit as [k|].
  - pose proof (run_within_limit props k ops Hlimit) as Hlen. split.
    + rewrite take_app. rewrite (take_ge (selectedFiles (run props ops))) by lia.
      reflexivity.
    + rewrite length_take, length_app. lia.
  - split; [reflexivity | apply length_app].
Qed.

(** X4: for an integer [maxFiles] from 0 to 100, the limit handed to the
    drop zone is what is left of [maxFiles], it is never negative, and the
    file input is disabled exactly when nothing is left. *)
Theorem dropzone_capacity (n : nat) (ops : list Op) :
  n ≤ 100 →
  maxFilesOf props = Number.of_Z (Z.of_nat n) →
  length (selectedFiles (run props ops)) ≤ n
  ∧ dropzoneMaxFiles props (run props ops)
    = Number.of_Z (Z.of_nat n - Z.of_nat (length (selectedFiles (run props ops))))
  ∧ Number.ge (dropzoneMaxFiles props (run props ops)) (Number.of_Z 0) = true
  ∧ (inputDisabled props (run props ops) = true
     ↔ dropzoneMaxFiles props (run props ops) = Number.of_Z 0)
  ∧ (inputDisabled props (run props ops) = true
     ↔ length (selectedFiles (run props ops)) = n).
Proof.
  intros Hn Hmax.
  pose proof (capacityTable_holds n Hn) as (Hint & Htable).
  assert (Hlen : length (selectedFiles (run props ops)) ≤ n).
  { apply run_within_limit. rewrite Hmax. exact Hint. }
  split; [exact Hlen|].
  unfold dropzoneMaxFiles, inputDisabled, lengthNumber. rewrite Hmax.
  destruct (Htable _ Hlen) as (Hsub & Hpos & Hzero & Hfull).
  rewrite Hsub. repeat split; try assumption; try apply Hzero; apply Hfull.
Qed.

(** X5: for a [maxFiles] that is at least 0, removing a selected file frees
    room for one more: the next dropped file is appended after the remaining
    ones. *)
Theorem remove_then_drop (ops : list Op) (index : nat) (f : File) :
  Number.leInteger 0 (maxFilesOf props) = true →
  index < length (selectedFiles (run props ops)) →
  selectedFiles (run props (ops ++ [RemoveFile index; OnDrop [f]]))
    = delete index (selectedFiles (run props ops)) ++ [f].
Proof.
  intros Hge Hi. destruct (nonneg_limit _ Hge) as (limit & _ & Hlimit).
  replace (ops ++ [RemoveFile index; OnDrop [f]])
    with ((ops ++ [RemoveFile index]) ++ [OnDrop [f]]) by (rewrite <- app_assoc; reflexivity).
  rewrite !run_snoc. cbn [step onDrop removeFile setAndNotify selectedFiles].
  rewrite (onDropFiles_limit props limit _ _ Hlimit), removeFileAt_delete.
  destruct limit as [k|]; [|reflexivity].
  pose proof (run_within_limit props k ops Hlimit) as Hlen.
  apply take_ge. rewrite length_app, length_delete by (apply lookup_lt_is_Some_2, Hi).
  cbn. lia.
Qed.

End FileSelectionMore.

Lemma drop_appends_what_fits_witness :
  let props := {| FileUpload.maxFiles := Some (Number.of_Z 3) |} in
  let ops := [FileUpload.OnDrop (map Sample.file ["a"; "b"])] in
  Number.leInteger 0 (FileUpload.maxFilesOf props) = true
  ∧ Number.integerPart (FileUpload.maxFilesOf props) (Some 3)
  ∧ ∃ limit : option nat,
      Number.integerPart (FileUpload.maxFilesOf props) limit
      ∧ FileUpload.selectedFiles
          (FileUpload.onDrop props (map Sample.file ["c"; "d"]) (FileUpload.run props ops))
        = FileUpload.selectedFiles (FileUpload.run props ops)
          ++ match limit with
             | Some k =>
                 take (k - length (FileUpload.selectedFiles (FileUpload.run props ops)))
                      (map Sample.file ["c"; "d"])
             | None => map Sample.file ["c"; "d"]
             end.
Proof.
  intros props ops. split; [reflexivity|]. split.
  - destruct (nonneg_limit (Number.of_Z 3) eq_refl) as ([k|] & Hpart & Hk);
      [|discriminate Hk].
    assert (Hthree : JsArray.toIntegerOrInfinity (Number.of_Z 3)
                     = JsArray.Finite (Z.of_nat 3)) by (vm_compute; reflexivity).
    rewrite Hthree in Hk. injection Hk as Hk. apply Nat2Z.inj in Hk.
    rewrite Hk. exact Hpart.
  - destruct (drop_appends_what_fits props ops (map Sample.file ["c"; "d"]) eq_refl)
      as (limit & Hpart & Hsel & _).
    exists limit. split; [exact Hpart | exact Hsel].
Defined.

Lemma dropzone_capacity_witness :
  let props := {| FileUpload.maxFiles := None |} in
  let ops := [FileUpload.OnDrop (map Sample.file ["a"; "b"; "c"])] in
  10 ≤ 100
  ∧ FileUpload.maxFilesOf props = Number.of_Z (Z.of_nat 10)
  ∧ FileUploadView.dropzoneMaxFiles props (FileUpload.run props ops) = Number.of_Z 7
  ∧ FileUploadView.inputDisabled props (FileUpload.run props ops) = false.
Proof.
  intros props ops. split; [lia|]. split; [reflexivity|].
  destruct (dropzone_capacity props 10 ops ltac:(lia) eq_refl)
    as (_ & Hleft & _ & _ & Hfull).
  split; [exact Hleft|].
  destruct (FileUploadView.inputDisabled props (FileUpload.run props ops)) eqn:Hd;
    [|reflexivity].
  pose proof (proj1 Hfull eq_refl) as Hten. vm_compute in Hten. discriminate Hten.
Defined.

Lemma remove_then_drop_witness :
  let props := {| FileUpload.maxFiles := Some (Number.of_Z 2) |} in
  let ops := [FileUpload.OnDrop (map Sample.file ["a"; "b"; "c"])] in
  Number.leInteger 0 (FileUpload.maxFilesOf props) = true
  ∧ 1 < length (FileUpload.selectedFiles (FileUpload.run props ops))
  ∧ FileUpload.selectedFiles
      (FileUpload.run props
         (ops ++ [FileUpload.RemoveFile 1; FileUpload.OnDrop [Sample.file "d"]]))
    = map Sample.file ["a"; "d"].
Proof.
  intros props ops. split; [reflexivity|].
  assert (Hi : 1 < length (FileUpload.selectedFiles (FileUpload.run props ops)))
    by (vm_compute; lia).
  split; [exact Hi|].
  exact (remove_then_drop props ops 1 (Sample.file "d") eq_refl Hi).
Defined.

(** ** Candidate table: rows, handlers, columns *)

Section TableMore.
Import CandidateTable CandidateTableView.
Context `{Runtime} {E : Type}.

(** The handlers a row is to carry for a candidate. *)
Lemma rowHandlers_row (props : CandidateTableProps E) (c : Candidate) :
  rowHandlers (row props c) =
    onViewDetails props (id c)
    :: match onReprocess props with
       | Some reprocess => if bool_decide (status c = Failed) then [reprocess (id c)] else []
       | None => []
       end.
Proof.
  unfold rowHandlers. rewrite rowActions_row.
  destruct (onReprocess props) as [reprocess|]; [|reflexivity].
  destruct (status c); reflexivity.
Qed.

Lemma offersReprocess_row (props : CandidateTableProps E) (c : Candidate) :
  offersReprocess (row props c) =
    match onReprocess props with
    | Some _ => bool_decide (status c = Failed)
    | None => false
    end.
Proof.
  unfold offersReprocess. rewrite rowActions_row.
  destruct (onReprocess props) as [reprocess|]; [|reflexivity].
  destruct (status c); reflexivity.
Qed.

(** X6: the table body has one row per candidate, in the order of the list,
    and each row's buttons call the handlers with that row's own candidate
    id: first [onViewDetails], then [onReprocess] when it is supplied and the
    candidate has failed.  An empty list gives the single placeholder row
    'No candidates found', which has no button. *)
Theorem table_rows_and_handlers (props : CandidateTableProps E) :
  length (renderedRows (CandidateTable props)) = max 1 (length (candidates props))
  ∧ match candidates props with
    | [] =>
        renderedRows (CandidateTable props) = [emptyRow]
        ∧ rowHandlers (emptyRow (E:=E)) = []
        ∧ CandidateDetailSheet.allTexts (emptyRow (E:=E)) = ["No candidates found"]
    | cs =>
        renderedRows (CandidateTable props) = map (row props) cs
        ∧ map rowHandlers (renderedRows (CandidateTable props))
          = map (λ c, onViewDetails props (id c)
                      :: match onReprocess props with
                         | Some reprocess =>
                             if bool_decide (status c = Failed)
                             then [reprocess (id c)] else []
                         | None => []
                         end) cs
    end.
Proof.
  rewrite renderedRows_table.
  destruct (candidates props) as [|c cs] eqn:Hcs.
  - repeat split; reflexivity.
  - cbn [length Nat.eqb]. split; [rewrite length_map; cbn; lia|].
    split; [reflexivity|]. rewrite map_map. apply map_ext. intros c'.
    apply rowHandlers_row.
Qed.

Lemma offersReprocess_count (props : CandidateTableProps E) :
  length (List.filter offersReprocess (renderedRows (CandidateTable props)))
  = match onReprocess props with
    | Some _ => length (List.filter (λ c, bool_decide (status c = Failed)) (candidates props))
    | None => 0
    end.
Proof.
  rewrite renderedRows_table.
  destruct (candidates props) as [|c cs].
  - destruct (onReprocess props); reflexivity.
  - cbn [length Nat.eqb]. generalize (c :: cs). intros l.
    induction l as [|c' l IH]; [destruct (onReprocess props); reflexivity|].
    cbn [map List.filter]. rewrite offersReprocess_row.
    destruct (onReprocess props) as [reprocess|].
    + destruct (bool_decide (status c' = Failed)); cbn [length]; rewrite IH; reflexivity.
    + exact IH.
Qed.

(** X7: the number of rows that offer the reprocess action is the number of
    failed candidates when [onReprocess] is supplied, and zero otherwise. *)
Theorem reprocess_rows_count (props : CandidateTableProps E) :
  length (List.filter offersReprocess (renderedRows (CandidateTable props)))
  = match onReprocess props with
    | Some _ => length (List.filter (λ c, bool_decide (status c = Failed)) (candidates props))
    | None => 0
    end.
Proof. apply offersReprocess_count. Qed.

(** X8: a row has one cell per header column (eight), and shows, in column
    order, the name, the e-mail, the position, the status, the score as
    'n/10', the recommendation and the formatted submission date; a candidate
    without evaluation shows '-' for both score and recommendation. *)
Theorem row_columns (props : CandidateTableProps E) (c : Candidate) :
  length (Jsx.children_of (row props c)) = length (Jsx.children_of (headerRow (E:=E)))
  ∧ length (Jsx.children_of (row props c)) = 8
  ∧ CandidateDetailSheet.allTexts (headerRow (E:=E))
    = ["Name"; "Email"; "Position"; "Status"; "Score"; "Recommendation"; "Submitted";
       "Actions"]
  ∧ CandidateDetailSheet.allTexts (row props c)
    = [name c; email c; job_description_title c; Status_literal (status c)]
      ++ match evaluation c with
         | Some ev => [numberToString (overall_score ev); "/10";
                       Recommendation_literal (recommendation ev)]
         | None => ["-"; "-"]
         end
      ++ [toLocaleDateString (created c)].
Proof.
  split; [reflexivity|]. split; [reflexivity|]. split; [reflexivity|].
  unfold row, actionsCell, TableCell.
  destruct (evaluation c) as [ev|], (onReprocess props) as [reprocess|];
    try destruct (String.eqb (Status_literal (status c)) "failed"); reflexivity.
Qed.

(** X9: on the statuses of the table's rows the table's status badge and
    the detail sheet's status badge show the same text, and they have the
    same variant except for 'processed' and 'rejected', where the table falls
    back to 'outline' and the sheet shows 'default' and 'destructive'. *)
Theorem status_badges_table_and_sheet (s : Status) :
  let table := getStatusBadge (E:=E) (Status_literal s) in
  let sheet := CandidateDetailSheetView.renderStatusBadge (E:=E) (Status_literal s) in
  Jsx.texts_of table = [Status_literal s]
  ∧ Jsx.texts_of sheet = [Status_literal s]
  ∧ (variantOf table = variantOf sheet ↔ s ≠ Processed ∧ s ≠ Rejected)
  ∧ variantOf table
    = Some match s with
           | Pending => "secondary" | Processing => "default"
           | Completed => "outline" | Failed => "destructive"
           | Processed => "outline" | Rejected => "outline"
           end
  ∧ variantOf sheet
    = Some match s with
           | Pending => "secondary" | Processing => "default"
           | Completed => "outline" | Failed => "destructive"
           | Processed => "default" | Rejected => "destructive"
           end.
Proof.
  intros table sheet. subst table sheet.
  split; [reflexivity|]. split; [reflexivity|].
  destruct s; vm_compute; repeat split; intros; try discriminate; try reflexivity;
    try congruence; destruct_and?; congruence.
Qed.

End TableMore.

(** ** Detail sheet: audit trail after a fetch, stale data, handlers *)

Section SheetMore.
Import CandidateDetailSheet CandidateDetailSheetActions.
Context `{Runtime} `{JsonText} {E : Type}.

(** X10: after a resolved fetch the sheet shows 'No processing events
    recorded yet.' exactly when the log page has no [results] field or an
    empty one; otherwise it shows one entry per record. *)
Theorem audit_trail_empty_iff
    (i : positive) (c : Api.any) (results : option (list Log)) (st : State) :
  let shown := logs (fetchData (Some (Z.pos i)) (Resolved c results) st) in
  (renderAuditTrail (E:=E) shown = noEvents ↔ results = None ∨ results = Some [])
  ∧ length (renderedEntries (renderAuditTrail (E:=E) shown))
    = length (default [] results).
Proof.
  intros shown. subst shown. rewrite fetchData_logs. split.
  - destruct results as [[|l ls]|]; cbn [default].
    + split; [right; reflexivity | reflexivity].
    + split; [intros Hd; discriminate Hd | intros [Hn|Hn]; discriminate Hn].
    + split; [left; reflexivity | reflexivity].
  - rewrite renderedEntries_trail. apply length_map.
Qed.

(** X11: a fetch that is rejected leaves the sheet as it was: after
    candidate [a] was loaded, a rejected fetch for candidate [b] still shows
    [a]'s data and [a]'s audit trail, with the loading flag cleared. *)
Theorem rejected_fetch_keeps_previous_candidate
    (a b : positive) (cA : Api.any) (logsA : list Log) (st : State) :
  let st1 := fetchData (Some (Z.pos a)) (Resolved cA (Some logsA)) st in
  let st2 := fetchData (Some (Z.pos b)) Rejected st1 in
  candidate st2 = Some cA
  ∧ logs st2 = logsA
  ∧ loading st2 = false
  ∧ renderAuditTrail (E:=E) (logs st2) = renderAuditTrail (E:=E) logsA
  ∧ fetchData None Rejected st = st
  ∧ fetchData (Some 0%Z) (Resolved cA (Some logsA)) st = st.
Proof. repeat split. Qed.

Lemma elem_of_fetchDataEffects (candidateId : option Z) (response : Response) (e : Effect) :
  e ∈ fetchDataEffects candidateId response →
  (∃ i, e = GetSheetData i) ∨ (∃ m, e = ConsoleError m).
Proof.
  unfold fetchDataEffects. destruct candidateId as [i|]; [|intros Hin; inversion Hin].
  destruct (Z.eqb i 0); [intros Hin; inversion Hin|].
  destruct response; rewrite ?elem_of_cons, ?elem_of_nil; intros Hin;
    destruct_or?; subst; eauto; contradiction.
Qed.

(** X12: the handlers of the sheet act only on success.  Without a candidate
    id ([null] or [0]) they do nothing at all.  [handleStatusChange] tells
    the parent exactly when the post resolved, whether or not the refresh
    that follows succeeds, and never opens or closes the sheet;
    [handleDelete] tells the parent and closes the sheet exactly when the
    delete resolved.  A rejected request leaves the sheet's data as they
    were, and [actionLoading] is cleared in every case with an id. *)
Theorem sheet_handlers_act_on_success
    (candidateId : option Z) (status : ManualStatus) (ok : bool)
    (refresh : Response) (st : SheetState) :
  let change := handleStatusChange candidateId status ok refresh st in
  let del := handleDelete candidateId ok st in
  (OnCandidateUpdated ∈ change.2 ↔ hasId candidateId = true ∧ ok = true)
  ∧ (∀ b, OnOpenChange b ∉ change.2)
  ∧ (OnCandidateUpdated ∈ del.2 ↔ hasId candidateId = true ∧ ok = true)
  ∧ (OnOpenChange false ∈ del.2 ↔ hasId candidateId = true ∧ ok = true)
  ∧ (OnOpenChange true ∉ del.2)
  ∧ (change.2 = [] ↔ hasId candidateId = false)
  ∧ (del.2 = [] ↔ hasId candidateId = false)
  ∧ (if hasId candidateId
     then actionLoading change.1 = false ∧ actionLoading del.1 = false
          ∧ sheet del.1 = sheet st
          ∧ sheet change.1 = (if ok then fetchData candidateId refresh (sheet st)
                              else sheet st)
     else change.1 = st ∧ del.1 = st).
Proof.
  intros change del. subst change del.
  unfold handleStatusChange, handleDelete, hasId.
  destruct candidateId as [i|]; [destruct (Z.eqb i 0) eqn:Hi|]; cbn [negb fst snd].
  1, 3: repeat split; intros; try reflexivity; try discriminate;
        try (destruct_and?; discriminate); try apply not_elem_of_nil;
        match goal with Hin : _ ∈ [] |- _ => inversion Hin end.
  destruct ok; cbn [fst snd sheet actionLoading].
  - assert (Hfetch : ∀ e, e ∈ fetchDataEffects (Some i) refresh →
                     e ≠ OnCandidateUpdated ∧ ∀ b, e ≠ OnOpenChange b).
    { intros e He. apply elem_of_fetchDataEffects in He as [[j ->]|[m ->]];
        split; intros; discriminate. }
    repeat split; intros; try reflexivity; try discriminate.
    + rewrite elem_of_cons, elem_of_app, elem_of_cons. auto.
    + rewrite elem_of_cons, elem_of_app, elem_of_cons, elem_of_nil.
      intros [Hb|[Hb|[Hb|[]]]]; try discriminate Hb.
      apply Hfetch in Hb as [_ Hb]. exact (Hb b eq_refl).
    + rewrite !elem_of_cons. auto.
    + rewrite !elem_of_cons. auto.
    + rewrite !elem_of_cons, elem_of_nil. intros [Hb|[Hb|[Hb|[]]]]; discriminate Hb.
  - repeat split; intros; try reflexivity; try discriminate;
      try (destruct_and?; discriminate);
      repeat match goal with
             | Hin : _ ∈ _ :: _ |- _ => apply elem_of_cons in Hin as [Hin|Hin]; try discriminate Hin
             | Hin : _ ∈ [] |- _ => inversion Hin
             | |- _ ∉ _ => intros ?
             end.
Qed.

End SheetMore.

(** ** Detail sheet: work experience and resume analysis *)

Section AnalysisSections.
Import CandidateDetailSheetActions.
Context `{JsonText} {E : Type}.

(** X13: the sheet shows 'No work experience data available.' and 'No
    analysis data available yet.' exactly when the detailed analysis is
    missing or falsy ([null], [false], [0], ['']); an empty object or an
    empty array is shown as data. *)
Theorem analysis_sections_no_data (detailed : option Json.value) :
  (renderWorkExperience (E:=E) detailed = noWorkExperience
     ↔ Json.truthyOpt detailed = false)
  ∧ (renderResumeAnalysis (E:=E) detailed = noAnalysis
     ↔ Json.truthyOpt detailed = false)
  ∧ Json.truthy (Json.JObj []) = true
  ∧ Json.truthy (Json.JArr []) = true.
Proof.
  split; [|split; [|split; reflexivity]].
  - destruct detailed as [d|]; cbn; [|split; reflexivity].
    destruct (Json.truthy d); cbn [negb]; [|split; reflexivity].
    split; [|intros Hf; discriminate Hf].
    destruct (workOf d); intros Heq; discriminate Heq.
  - destruct detailed as [d|]; cbn; [|split; reflexivity].
    destruct (Json.truthy d); cbn [negb]; [|split; reflexivity].
    split; intros Heq; discriminate Heq.
Qed.


End AnalysisSections.


(** ** Evaluation card: which cards, which items *)

Section CardsMore.
Import EvaluationCard EvaluationCardSections.
Context `{Runtime} {E : Type}.

Lemma cardTitles_map_nil {A} (f : A → Element E) (l : list A) :
  (∀ x, cardTitles (f x) = []) → concat (map cardTitles (map f l)) = [].
Proof.
  intros Hf. induction l as [|x l IH]; [reflexivity|].
  cbn [map concat]. rewrite Hf, IH. reflexivity.
Qed.

Lemma cardTitles_bulletList (iconName iconClass : string) (items : list string) :
  cardTitles (bulletList (E:=E) iconName iconClass items) = [].
Proof.
  unfold bulletList, Jsx.el. cbn [cardTitles String.eqb Ascii.eqb Bool.eqb].
  apply cardTitles_map_nil. intros x. unfold Jsx.icon. cbn.
  destruct (String.eqb iconName "CardTitle"); reflexivity.
Qed.

Lemma cardTitles_skillRow (entry : string * SkillMatch) :
  cardTitles (skillRow (E:=E) entry) = [].
Proof.
  destruct entry as [skill data]. unfold skillRow.
  destruct (matched data), (negb (String.eqb (evidence data) "")); reflexivity.
Qed.

Lemma cardTitles_skillRows (entries : list (string * SkillMatch)) :
  concat (map cardTitles (skillRows (E:=E) entries)) = [].
Proof. unfold skillRows. apply cardTitles_map_nil, cardTitles_skillRow. Qed.

Lemma cardTitles_overallAssessment (props : EvaluationCardProps) :
  cardTitles (overallAssessment (E:=E) props) = ["Overall Assessment"].
Proof.
  unfold overallAssessment, recommendationBadge.
  destruct (truthy (summary (detailed_analysis (evaluation props)))),
    (String.eqb (Recommendation_literal (recommendation (evaluation props))) "interview");
    reflexivity.
Qed.

Lemma cardTitles_titledCard (title : string) (content : list (Element E)) :
  concat (map cardTitles content) = [] →
  cardTitles (titledCard title content) = [title].
Proof. intros Hc. cbn. rewrite Hc. reflexivity. Qed.

(** X15: the evaluation card shows its cards in a fixed order, each under
    its own condition: always 'Overall Assessment'; 'Key Strengths' and
    'Areas of Concern' only for a non-empty list; 'Skills Assessment'
    whenever [skill_matches] is present, empty or not; 'Technical Depth' and
    'Experience' when present. *)
Theorem evaluation_card_titles (props : Props) :
  let da := fe_detailed_analysis (p_evaluation props) in
  cardTitles (EvaluationCardSections.EvaluationCard (E:=E) props)
  = ["Overall Assessment"]
    ++ (if nonEmpty (key_highlights da) then ["Key Strengths"] else [])
    ++ (if nonEmpty (concerns da) then ["Areas of Concern"] else [])
    ++ (if skill_matches da is Some _ then ["Skills Assessment"] else [])
    ++ (if technical_depth da is Some _ then ["Technical Depth"] else [])
    ++ (if experience_assessment da is Some _ then ["Experience"] else []).
Proof.
  intros da. unfold EvaluationCardSections.EvaluationCard. fold da.
  unfold Jsx.el at 1. cbn [cardTitles String.eqb Ascii.eqb Bool.eqb].
  rewrite !map_app, !concat_app. cbn [map concat].
  rewrite cardTitles_overallAssessment, app_nil_r.
  f_equal. f_equal; [|f_equal; [|f_equal]].
  - destruct (nonEmpty (key_highlights da)); [|reflexivity].
    cbn [map concat]. rewrite cardTitles_titledCard; [reflexivity|].
    cbn [map concat]. rewrite cardTitles_bulletList. reflexivity.
  - destruct (nonEmpty (concerns da)); [|reflexivity].
    cbn [map concat]. rewrite cardTitles_titledCard; [reflexivity|].
    cbn [map concat]. rewrite cardTitles_bulletList. reflexivity.
  - destruct (skill_matches da) as [entries|]; [|reflexivity].
    cbn [map concat]. rewrite cardTitles_titledCard; [reflexivity|].
    cbn [map concat]. unfold Jsx.el. cbn [cardTitles String.eqb Ascii.eqb Bool.eqb].
    rewrite cardTitles_skillRows. reflexivity.
  - rewrite app_nil_r. unfold Jsx.el. cbn [cardTitles String.eqb Ascii.eqb Bool.eqb].
    rewrite map_app, concat_app.
    destruct (technical_depth da) as [td|], (experience_assessment da) as [ea|];
      cbn; repeat match goal with |- context [meets_requirement ?x] =>
                    destruct (meets_requirement x) end; reflexivity.
Qed.

Lemma shownSkills_rows (entries : list (string * SkillMatch)) :
  shownSkills (map (skillRow (E:=E)) entries) = map fst entries.
Proof.
  induction entries as [|[skill data] l IH]; [reflexivity|].
  unfold shownSkills in *. cbn [map concat]. rewrite IH.
  unfold skillRow. destruct (matched data); reflexivity.
Qed.


End CardsMore.

(** ** Upload page: job selection, submission, banner *)

Section UploadPage.
Import UploadResumes.

Lemma resumeParts_formData (st : State) :
  resumeParts (formDataOf st) = map (λ f, ("resumes", FilePart f)) (files st).
Proof.
  unfold resumeParts, formDataOf. induction (files st) as [|f l IH]; [reflexivity|].
  cbn. cbn in IH. rewrite IH. reflexivity.
Qed.

(** X17: [handleSubmit] sends a request only when at least one file and a
    job are selected, and then exactly one, whose form data holds one
    'resumes' part per selected file, in order, followed by the selected job
    id; it never changes the selected files, the job list or the selected
    job. *)
Theorem upload_request_only_when_valid
    (cookie : string) (response : UploadResponse) (st : State) :
  let r := handleSubmit cookie response st in
  requestsOf r.2 = (if validForm st then [formDataOf st] else [])
  ∧ (validForm st = true ↔ files st ≠ [] ∧ selectedJobId st ≠ "")
  ∧ map snd (resumeParts (formDataOf st)) = map FilePart (files st)
  ∧ last (formDataOf st) = Some ("job_description_id", TextPart (selectedJobId st))
  ∧ length (formDataOf st) = length (files st) + 1
  ∧ files r.1 = files st
  ∧ jobDescriptions r.1 = jobDescriptions st
  ∧ selectedJobId r.1 = selectedJobId st.
Proof.
  intros r. subst r. unfold handleSubmit, validForm.
  split.
  { destruct (Nat.eqb (length (files st)) 0); [reflexivity|].
    destruct (String.eqb (selectedJobId st) ""); [reflexivity|].
    destruct response; reflexivity. }
  split.
  { destruct (files st) as [|f l]; cbn.
    - split; [intros Hf; discriminate Hf | intros [Hf _]; contradiction].
    - destruct (String.eqb_spec (selectedJobId st) "") as [Hj|Hj]; cbn.
      + split; [intros Hf; discriminate Hf | intros [_ Hf]; contradiction].
      + split; [intros _; split; [discriminate | exact Hj] | reflexivity]. }
  split; [rewrite resumeParts_formData, map_map; reflexivity|].
  split; [unfold formDataOf; apply last_snoc|].
  split; [unfold formDataOf; rewrite length_app, length_map; reflexivity|].
  destruct (Nat.eqb (length (files st)) 0); [repeat split|].
  destruct (String.eqb (selectedJobId st) ""); [repeat split|].
  destruct response; repeat split.
Qed.

(** X18: after every submission a banner is shown, and it has the
    destructive style only when the server refused the upload: the checks
    that stop a submission, a successful upload and also a request that threw
    ('An error occurred while uploading resumes.') are shown in the success
    style. *)
Theorem upload_banner_style
    (cookie : string) (response : UploadResponse) (st : State) (E : Type) :
  let msg := message (handleSubmit cookie response st).1 in
  map (Jsx.prop_of "className") (messageBanner (E:=E) msg)
  = [Some (if validForm st && isRefused response
           then "p-4 rounded-md bg-destructive/10 text-destructive"
           else "p-4 rounded-md bg-green-50 text-green-800")]
  ∧ map Jsx.texts_of (messageBanner (E:=E) msg) = [[msg]]
  ∧ (String.prefix "Error" msg = true ↔ validForm st = true ∧ isRefused response = true)
  ∧ message (handleSubmit cookie Threw st).1
    = (if validForm st then "An error occurred while uploading resumes."
       else message (handleSubmit cookie response st).1).
Proof.
  intros msg. subst msg. unfold handleSubmit, validForm.
  destruct (Nat.eqb (length (files st)) 0); cbn [negb andb].
  { repeat split; intros; try discriminate; destruct_and?; discriminate. }
  destruct (String.eqb (selectedJobId st) ""); cbn [negb andb].
  { repeat split; intros; try discriminate; destruct_and?; discriminate. }
  destruct response as [n|error|]; cbn [isRefused fst withMessage message].
  - repeat split; intros; try discriminate; destruct_and?; discriminate.
  - repeat split; intros; reflexivity.
  - repeat split; intros; try discriminate; destruct_and?; discriminate.
Qed.

Lemma selectOption_option (k : nat) (st : State) :
  selectedJobId st ∈ optionValues st →
  selectedJobId (selectOption k st) ∈ optionValues (selectOption k st)
  ∧ jobDescriptions (selectOption k st) = jobDescriptions st.
Proof.
  intros Hin. unfold selectOption.
  destruct (optionValues st !! k) as [v|] eqn:Hk; [|split; [exact Hin | reflexivity]].
  split; [|reflexivity]. unfold optionValues in *. cbn [jobDescriptions selectedJobId].
  eapply list_elem_of_lookup_2, Hk.
Qed.

(** X19: the value of the job select is always one of its options: after
    the job descriptions were fetched the first job is preselected (or
    nothing, when the list is empty, missing, or the fetch failed), and the
    user's choices only pick among the options shown. *)
Theorem selected_job_is_an_option (response : JobsResponse) (picks : list nat) :
  let st0 := fetchJobDescriptions response initial in
  let st := foldl (λ st k, selectOption k st) st0 picks in
  selectedJobId st ∈ optionValues st
  ∧ jobDescriptions st
    = match response with JobsJson (Some jobs) => jobs | _ => [] end
  ∧ selectedJobId st0
    = match response with
      | JobsJson (Some (job :: _)) => idToString (Api.jd_id job)
      | _ => ""
      end.
Proof.
  intros st0 st.
  assert (Hpicks : ∀ s, selectedJobId s ∈ optionValues s →
            selectedJobId (foldl (λ st k, selectOption k st) s picks)
              ∈ optionValues (foldl (λ st k, selectOption k st) s picks)
            ∧ jobDescriptions (foldl (λ st k, selectOption k st) s picks)
              = jobDescriptions s).
  { induction picks as [|k picks IH]; intros s Hin; [split; [exact Hin|reflexivity]|].
    cbn [foldl]. destruct (selectOption_option k s Hin) as [Hin' Hjobs].
    destruct (IH (selectOption k s) Hin') as [Hin'' Hjobs'].
    split; [exact Hin''|]. rewrite Hjobs'. exact Hjobs. }
  assert (H0 : selectedJobId st0 ∈ optionValues st0).
  { subst st0. destruct response as [|[[|job jobs]|]]; unfold optionValues; cbn;
      rewrite ?elem_of_cons; auto. }
  destruct (Hpicks st0 H0) as [Hin Hjobs].
  split; [exact Hin|]. split.
  - subst st. rewrite Hjobs. subst st0.
    destruct response as [|[[|job jobs]|]]; reflexivity.
  - subst st0. destruct response as [|[[|job jobs]|]]; reflexivity.
Qed.

(** X20: the page's files are always the widget's current selection, so a
    submission never carries more than ten resumes. *)
Theorem upload_at_most_ten_resumes
    (ops : list FileUpload.Op) (cookie : string) (response : UploadResponse) (st : State) :
  let st' := setFiles (filesFromWidget ops) st in
  filesFromWidget ops
    = FileUpload.selectedFiles (FileUpload.run {| FileUpload.maxFiles := Some (Number.of_Z 10) |} ops)
  ∧ length (files st') ≤ 10
  ∧ Forall (λ fd, length (resumeParts fd) ≤ 10 ∧ length fd ≤ 11)
      (requestsOf (handleSubmit cookie response st').2).
Proof.
  intros st'.
  assert (Hfiles : filesFromWidget ops
            = FileUpload.selectedFiles
                (FileUpload.run {| FileUpload.maxFiles := Some (Number.of_Z 10) |} ops))
    by apply last_notified_run.
  assert (Hlen : length (files st') ≤ 10).
  { subst st'. cbn [setFiles files]. rewrite Hfiles.
    apply (run_within_limit {| FileUpload.maxFiles := Some (Number.of_Z 10) |} 10).
    vm_compute. reflexivity. }
  split; [exact Hfiles|]. split; [exact Hlen|].
  unfold handleSubmit.
  destruct (Nat.eqb (length (files st')) 0); [constructor|].
  destruct (String.eqb (selectedJobId st') ""); [constructor|].
  assert (Hfd : length (resumeParts (formDataOf st')) ≤ 10
                ∧ length (formDataOf st') ≤ 11).
  { rewrite resumeParts_formData, length_map. unfold formDataOf.
    rewrite length_app, length_map. cbn [length]. lia. }
  destruct response; cbn [requestsOf omap list_omap snd];
    (constructor; [exact Hfd | constructor]).
Qed.

End UploadPage.

(** ** Dashboard: statistics and table after a fetch *)

Section DashboardMore.
Import Dashboard DashboardView CandidateTableView.

(** X21: [fetchCandidates] always clears the loading flag.  A response
    with results makes the statistics those of the list shown; a failed
    request keeps both as they were; a response without [results] empties the
    list but keeps the old statistics, so that they agree with the (empty)
    list only if they were all zero: after a list of n candidates was loaded,
    such a response leaves an empty table under a total of n. *)
Theorem statistics_follow_the_list
    {A : Type} `{HasStatus A} (response : Response A) (rs : list A) (st : State A) :
  loading (fetchCandidates response st) = false
  ∧ consistent (initialState (A:=A))
  ∧ consistent (fetchCandidates (Json (Some rs)) st)
  ∧ (consistent (fetchCandidates Failed st) ↔ consistent st)
  ∧ (consistent (fetchCandidates (Json None) st) ↔ stats st = newStats [])
  ∧ (let st2 := fetchCandidates (Json None) (fetchCandidates (Json (Some rs)) st) in
     candidates st2 = [] ∧ total (stats st2) = length rs).
Proof.
  split; [destruct response as [|[results|]]; reflexivity|].
  repeat split; intros Hc; exact Hc.
Qed.

Lemma failed_counter_table (rs : list CandidateTable.Candidate) :
  failed (newStats rs)
  = length (List.filter (λ c, bool_decide (CandidateTable.status c = CandidateTable.Failed)) rs)
    + length (List.filter
                (λ c, bool_decide (CandidateTable.status c = CandidateTable.Rejected)) rs).
Proof.
  cbn [newStats failed]. induction rs as [|c l IH]; [reflexivity|].
  rewrite !length_filter_cons, IH.
  unfold isFailed, statusOf, table_status.
  destruct (CandidateTable.status c); repeat case_bool_decide; try congruence;
    cbn; lia.
Qed.

(** X22: once a list of candidates is loaded, the dashboard's table offers
    the reprocess action in exactly the rows of failed candidates, each bound
    to that candidate's id; the 'Rejected' card counts these and the
    rejected candidates, so it is never smaller than the number of reprocess
    buttons. *)
Theorem dashboard_reprocess_buttons
    `{Runtime} (rs : list CandidateTable.Candidate) (st : State CandidateTable.Candidate) :
  let st' := fetchCandidates (Json (Some rs)) st in
  let rows := CandidateTable.renderedRows (candidatesPanel st') in
  length (List.filter CandidateTable.offersReprocess rows)
  = length (List.filter
              (λ c, bool_decide (CandidateTable.status c = CandidateTable.Failed)) rs)
  ∧ failed (stats st')
    = length (List.filter CandidateTable.offersReprocess rows)
      + length (List.filter
                  (λ c, bool_decide (CandidateTable.status c = CandidateTable.Rejected)) rs)
  ∧ concat (map CandidateTableView.rowHandlers rows)
    = concat (map (λ c, HandleViewDetails (CandidateTable.id c)
                        :: (if bool_decide (CandidateTable.status c = CandidateTable.Failed)
                            then [HandleReprocess (CandidateTable.id c)] else []))
                  rs).
Proof.
  intros st' rows.
  assert (Hcount : length (List.filter CandidateTable.offersReprocess rows)
            = length (List.filter
                (λ c, bool_decide (CandidateTable.status c = CandidateTable.Failed)) rs)).
  { subst rows st'. unfold candidatesPanel. cbn [fetchCandidates loading].
    rewrite offersReprocess_count. reflexivity. }
  split; [exact Hcount|]. split.
  - rewrite Hcount. subst st'. cbn [fetchCandidates stats]. apply failed_counter_table.
  - subst rows st'. unfold candidatesPanel. cbn [fetchCandidates loading].
    rewrite renderedRows_table. cbn [tableProps CandidateTable.candidates candidates].
    destruct rs as [|c l]; [reflexivity|]. cbn [length Nat.eqb].
    rewrite map_map. f_equal. apply map_ext. intros c'.
    rewrite rowHandlers_row. reflexivity.
Qed.

End DashboardMore.

(** ** Breadcrumbs *)

Section Breadcrumbs.
Import MainLayout.
Context {E : Type}.

Lemma imap_crumbItem_shift (k : nat) (l : list Crumb) :
  imap ((λ i, crumbItem (E:=E) (k + i)) ∘ S) l = imap (λ i, crumbItem (S k + i)) l.
Proof. apply imap_ext. intros i x _. cbn. f_equal. lia. Qed.

Lemma list_sum_cons (x : nat) (l : list nat) : list_sum (x :: l) = x + list_sum l.
Proof. reflexivity. Qed.

(** The counts and texts of the items from the second crumb on. *)
Lemma later_crumbs (k : nat) (l : list Crumb) :
  let items := imap (λ i, crumbItem (E:=E) (S k + i)) l in
  list_sum (map (countTag "BreadcrumbItem") items) = length l
  ∧ list_sum (map (countTag "BreadcrumbSeparator") items) = length l
  ∧ list_sum (map (countTag "BreadcrumbLink") items) = length (List.filter hrefTruthy l)
  ∧ list_sum (map (countTag "BreadcrumbPage") items)
    = length (List.filter (λ c, negb (hrefTruthy c)) l)
  ∧ concat (map CandidateDetailSheet.allTexts items) = map label l.
Proof.
  revert k. induction l as [|c l IH]; intros k; [repeat split|].
  intros items. subst items.
  cbn [imap]. rewrite (imap_crumbItem_shift (S k)).
  destruct (IH (S k)) as (Hi & Hs & Hl & Hp & Ht).
  cbn [map concat length List.filter].
  rewrite !list_sum_cons, Hi, Hs, Hl, Hp, Ht. unfold crumbItem.
  cbn [Nat.add Nat.ltb Nat.leb].
  destruct (hrefTruthy c); cbn; repeat split; lia.
Qed.

(** X23: the breadcrumb bar is rendered only for a non-empty list; it then
    has one item per crumb with the labels in order, a separator before every
    crumb but the first, a link for each crumb with a non-empty [href] and
    the plain page name for each other crumb. *)
Theorem breadcrumbs_structure (breadcrumbs : option (list Crumb)) :
  let nav := breadcrumbNav (E:=E) breadcrumbs in
  let crumbs := default [] breadcrumbs in
  (nav = [] ↔ crumbs = [])
  ∧ list_sum (map (countTag "BreadcrumbItem") nav) = length crumbs
  ∧ list_sum (map (countTag "BreadcrumbSeparator") nav) = length crumbs - 1
  ∧ list_sum (map (countTag "BreadcrumbLink") nav) = length (List.filter hrefTruthy crumbs)
  ∧ list_sum (map (countTag "BreadcrumbPage") nav)
    = length (List.filter (λ c, negb (hrefTruthy c)) crumbs)
  ∧ concat (map CandidateDetailSheet.allTexts nav) = map label crumbs.
Proof.
  intros nav crumbs. subst nav crumbs.
  destruct breadcrumbs as [[|c l]|]; cbn [default breadcrumbNav];
    [repeat split; reflexivity| |repeat split; reflexivity].
  split; [split; intros Hn; discriminate Hn|].
  cbn [imap]. change (crumbItem (E:=E) ∘ S) with ((λ i, crumbItem (E:=E) (0 + i)) ∘ S).
  rewrite (imap_crumbItem_shift 0).
  destruct (later_crumbs 0 l) as (Hi & Hs & Hl & Hp & Ht).
  cbn [map countTag concat CandidateDetailSheet.allTexts String.eqb Ascii.eqb
       Bool.eqb length List.filter].
  rewrite !list_sum_cons, Hi, Hs, Hl, Hp, Ht. unfold crumbItem.
  cbn [Nat.ltb Nat.leb].
  cbn [default id length List.filter map].
  destruct (hrefTruthy c); cbn; rewrite ?app_nil_r; repeat split; lia.
Qed.

End Breadcrumbs.

(** ** The CSRF token read from the cookie string *)

Section CsrfToken.
Import UploadResumes.
Local Open Scope string_scope.

Lemma append_nil_r (s : string) : s ++ "" = s.
Proof.
  induction s as [|c s IH]; [reflexivity|].
  change (String c (s ++ "") = String c s). f_equal. exact IH.
Qed.

Lemma append_assoc (a b c : string) : (a ++ b) ++ c = a ++ (b ++ c).
Proof.
  induction a as [|x a IH]; [reflexivity|].
  change (String x ((a ++ b) ++ c) = String x (a ++ (b ++ c))). f_equal. exact IH.
Qed.

Lemma prefix_append (sep x : string) : String.prefix sep (sep ++ x) = true.
Proof.
  induction sep as [|a sep IH]; [destruct x; reflexivity|].
  change (String.prefix (String a sep) (String a (sep ++ x)) = true).
  cbn [String.prefix]. destruct (ascii_dec a a) as [_|Hne]; [exact IH | contradiction].
Qed.

(** Without an occurrence of the separator the string is one piece. *)
Lemma splitGo_no_match (sep cur s : string) :
  Str.includes sep s = false → Str.splitGo sep 0 cur s = [cur ++ s].
Proof.
  revert cur. induction s as [|c s IH]; intros cur Hno.
  - cbn. rewrite append_nil_r. reflexivity.
  - cbn [Str.includes] in Hno. apply orb_false_iff in Hno as [Hp Hs].
    cbn [Str.splitGo]. rewrite Hp, (IH _ Hs), append_assoc. reflexivity.
Qed.

(** The characters of a matched separator are passed over. *)
Lemma splitGo_skip (sep cur y x : string) :
  Str.splitGo sep (String.length y) cur (y ++ x) = Str.splitGo sep 0 cur x.
Proof. induction y as [|c y IH]; [destruct x; reflexivity | exact IH]. Qed.

(** The piece before the first occurrence of the separator. *)
Lemma splitGo_first_match (a : ascii) (sep' cur pre x : string) :
  Str.noMatchWithin (String a sep') pre (String a sep' ++ x) = true →
  Str.splitGo (String a sep') 0 cur (pre ++ String a sep' ++ x)
  = (cur ++ pre) :: Str.splitGo (String a sep') 0 "" x.
Proof.
  revert cur. induction pre as [|c pre IH]; intros cur Hno.
  - change ("" ++ String a sep' ++ x) with (String a (sep' ++ x)).
    cbn [Str.splitGo].
    change (String a (sep' ++ x)) with (String a sep' ++ x).
    rewrite prefix_append, append_nil_r.
    replace (String.length (String a sep') - 1)%nat with (String.length sep')
      by (cbn [String.length]; lia).
    rewrite splitGo_skip. reflexivity.
  - cbn [Str.noMatchWithin] in Hno. apply andb_true_iff in Hno as [Hp Hrest].
    apply negb_true_iff in Hp.
    change (String c pre ++ String a sep' ++ x) with (String c (pre ++ String a sep' ++ x)).
    cbn [Str.splitGo].
    change (String c (pre ++ String a sep' ++ x)) with (String c pre ++ String a sep' ++ x).
    rewrite Hp, (IH _ Hrest), append_assoc. reflexivity.
Qed.

Lemma noMatchWithin_char (a : ascii) (tok tail : string) :
  Str.includes (String a "") tok = false →
  Str.noMatchWithin (String a "") tok tail = true.
Proof.
  induction tok as [|c tok IH]; intros Hno; [reflexivity|].
  cbn [Str.includes] in Hno. apply orb_false_iff in Hno as [Hp Hs].
  cbn [Str.noMatchWithin]. rewrite (IH Hs), andb_true_r.
  change (String c tok ++ tail) with (String c (tok ++ tail)).
  cbn [String.prefix] in Hp |- *.
  destruct (ascii_dec a c); [|reflexivity].
  destruct tok; discriminate Hp.
Qed.



End CsrfToken.


